(** * xyflow core: a shallow embedding of the container and node wrapper

    The development follows [packages/core/src]: the two versions of the
    [ReactFlow] container (event delegation through [findNodeOrEdge] and
    [eventHandlersDecorator], the hover decorator of the newer one over
    sequences of renders, the attributes of the rendered [div]), the node
    wrapper ([arrowKeyDiffs], [onKeyDown], the resize observer and
    re-measure effects and the rendered element) and the configuration
    defaults of the container.

    JavaScript values are modelled as follows: a [number] is a rational
    [Q]; an attribute of [dataset] is an entry of a [gmap string string];
    [undefined] props are [None]; a function value is known by its identity
    only; a handler produces the list of its effects in program order and a
    completion (normal, or a thrown exception). *)

From Stdlib Require Import ZArith QArith Qround Qminmax Qabs Lqa Lia Ascii String.
From stdpp Require Import gmap strings list fin_maps pretty.

Local Open Scope string_scope.
Local Open Scope list_scope.

(** ** JavaScript values *)

Module Js.

Definition number := Q.

(** What [JSON.parse] returns. *)
#[warnings="-register-all"]
Inductive Json :=
| JNull
| JBool (b : bool)
| JNum (n : number)
| JStr (s : string)
| JArr (items : list Json)
| JObj (fields : list (string * Json)).

(** ToBoolean on a string-or-undefined attribute value. *)
Definition truthy (v : option string) : bool :=
  match v with
  | Some s => negb (String.eqb s EmptyString)
  | None => false
  end.

(** ToBoolean on a parsed value. *)
Definition truthyJson (v : Json) : bool :=
  match v with
  | JNull => false
  | JBool b => b
  | JNum n => negb (Qeq_bool n 0)
  | JStr s => negb (String.eqb s EmptyString)
  | JArr _ | JObj _ => true
  end.

(** [v == 'lit'] for [v] a string or [undefined]. *)
Definition looseEq (v : option string) (lit : string) : bool :=
  match v with
  | Some s => String.eqb s lit
  | None => false
  end.

(** Own property of a parsed object; a later duplicate key wins. *)
Fixpoint lookupField (k : string) (fields : list (string * Json)) : option Json :=
  match fields with
  | [] => None
  | (k', v) :: rest =>
      match lookupField k rest with
      | Some w => Some w
      | None => if String.eqb k k' then Some v else None
      end
  end.

(** [v.id]: [None] is a TypeError (property of [null]), [Some None] is
    [undefined]. *)
Definition getId (v : Json) : option (option Json) :=
  match v with
  | JNull => None
  | JObj fields => Some (lookupField "id" fields)
  | _ => Some None
  end.

(** [a === b] for a value of a freshly parsed record against a value of
    an older one: primitives by value, objects and arrays by reference
    (never the same reference). *)
Definition strictEq (a b : option Json) : bool :=
  match a, b with
  | None, None => true
  | Some JNull, Some JNull => true
  | Some (JBool x), Some (JBool y) => Bool.eqb x y
  | Some (JNum x), Some (JNum y) => Qeq_bool x y
  | Some (JStr x), Some (JStr y) => String.eqb x y
  | _, _ => false
  end.

(** [v?.id]: [undefined] when [v] is [null] or has no such property. *)
Definition getIdOpt (v : Json) : option Json :=
  match v with
  | JObj fields => lookupField "id" fields
  | _ => None
  end.

Inductive Completion := Normal | Throw.

End Js.

(** ** DOM elements and mouse events *)

Module Dom.
Import Js.

(** An element is known by its identity ([===]) and its [dataset]. *)
Record HTMLElement := mkElement {
  elKey : nat;
  dataset : gmap string string
}.

Definition sameElement (a b : HTMLElement) : bool := Nat.eqb (elKey a) (elKey b).

(** A mouse event: [event.target] with its chain of [parentElement]s
    (nearest first, up to the root) and [event.currentTarget]. *)
Record MouseEvent := mkEvent {
  target : HTMLElement;
  targetAncestors : list HTMLElement;
  currentTarget : HTMLElement
}.

(** The identity of a callback prop. *)
Definition Handler := nat.

Definition supplied (cb : option Handler) : bool :=
  match cb with Some _ => true | None => false end.

(** The value of [currentHovered] in the newer container. *)
Record Hovered := mkHovered {
  hovElType : option string;
  hovEl : Json
}.

Inductive LogValue :=
| LText (s : string)
| LAttr (v : option string)
| LElement (e : option HTMLElement)
| LJson (j : Json).

(** What a handler of the container does: console output, a node or edge
    callback called with the event and the parsed record, the plain
    [onClick] prop called with the event, a state update. *)
Inductive Effect :=
| ConsoleLog (args : list LogValue)
| Invoke (f : Handler) (event : MouseEvent) (arg : Json)
| Notify (f : Handler) (event : MouseEvent)
| SetCurrentHovered (h : Hovered).

Definition Run := (list Effect * Completion)%type.

Definition isLog (e : Effect) : bool :=
  match e with ConsoleLog _ => true | _ => false end.

(** Sequencing of two runs: the second one does not start when the
    first one threw. *)
Definition andThen (r k : Run) : Run :=
  match r with
  | (es, Normal) => (es ++ k.1, k.2)
  | (es, Throw) => (es, Throw)
  end.

Definition ret : Run := ([], Normal).
Definition throw : Run := ([], Throw).
Definition emit (e : Effect) : Run := ([e], Normal).

(** [cb(event, arg)]; calling [undefined] is a TypeError. *)
Definition call (cb : option Handler) (event : MouseEvent) (arg : Json) : Run :=
  match cb with
  | Some f => emit (Invoke f event arg)
  | None => throw
  end.

(** The mouse events the container delegates to node and edge callbacks
    through [eventHandlersDecorator] in both versions. *)
Inductive Gesture := Click | DoubleClick | ContextMenu | MouseMove.

(** The props of the container the delegation reads. *)
Record DelegationProps := mkDelegationProps {
  onClick : option Handler;
  onNodeClick : option Handler;
  onEdgeClick : option Handler;
  onNodeDoubleClick : option Handler;
  onEdgeDoubleClick : option Handler;
  onNodeContextMenu : option Handler;
  onEdgeContextMenu : option Handler;
  onNodeMouseMove : option Handler;
  onEdgeMouseMove : option Handler
}.

End Dom.

(** ** container/ReactFlow, the older version (with console output) *)

Module ReactFlowLogged.
Import Js Dom.

Section WithJSON.
(** [JSON.parse] on a string; [None] when it throws a SyntaxError. *)
Variable JSON_parse : string -> option Json.

(** [JSON.parse(attr)]; an [undefined] argument is not valid JSON. *)
Definition parseAttr (attr : option string) : option Json :=
  match attr with
  | Some s => JSON_parse s
  | None => None
  end.

Fixpoint findNodeOrEdge (node : HTMLElement) (ancestors : list HTMLElement)
    (listeningEl : HTMLElement) {struct ancestors}
    : list Effect * option HTMLElement :=
  let elType := dataset node !! "eltype" in
  let log1 := ConsoleLog [LAttr elType] in
  if truthy elType then ([log1], Some node)
  else
    let log2 := ConsoleLog [LElement (head ancestors)] in
    match ancestors with
    | [] => ([log1; log2], None)
    | parentElement :: rest =>
        if sameElement parentElement listeningEl then ([log1; log2], None)
        else
          let r := findNodeOrEdge parentElement rest listeningEl in
          (log1 :: log2 :: r.1, r.2)
    end.

Definition eventHandlersDecorator (nodeCallback edgeCallback : option Handler)
    (event : MouseEvent) : Run :=
  if negb (supplied nodeCallback) && negb (supplied edgeCallback) then ret
  else
    let found := findNodeOrEdge (target event) (targetAncestors event) (currentTarget event) in
    andThen (found.1 ++ [ConsoleLog [LText "DATA"; LElement found.2]], Normal)
      match found.2 with
      | None => ret
      | Some data =>
          let elType := dataset data !! "eltype" in
          if looseEq elType "node" && supplied nodeCallback then
            if truthy (dataset data !! "nodedata") then
              match parseAttr (dataset data !! "nodedata") with
              | None => throw
              | Some node =>
                  andThen (emit (ConsoleLog [LText "NODE"; LJson node]))
                          (call nodeCallback event node)
              end
            else ret
          else if looseEq elType "edge" && supplied edgeCallback then
            if truthy (dataset data !! "edgedata") then
              match parseAttr (dataset data !! "edgedata") with
              | None => throw
              | Some edge =>
                  andThen (emit (ConsoleLog [LText "EDGE:"; LJson edge]))
                          (call edgeCallback event edge)
              end
            else ret
          else ret
      end.

Definition onElClick (props : DelegationProps) : MouseEvent -> Run :=
  eventHandlersDecorator (onNodeClick props) (onEdgeClick props).

Definition onElDoubleClick (props : DelegationProps) : MouseEvent -> Run :=
  eventHandlersDecorator (onNodeDoubleClick props) (onEdgeDoubleClick props).

Definition onElContextMenu (props : DelegationProps) : MouseEvent -> Run :=
  eventHandlersDecorator (onNodeContextMenu props) (onEdgeContextMenu props).

Definition onElMouseMove (props : DelegationProps) : MouseEvent -> Run :=
  eventHandlersDecorator (onNodeMouseMove props) (onEdgeMouseMove props).

(** The handler the rendered [div] has for a gesture.  An [onClick] prop
    is among the spread props and is replaced by [onElClick]. *)
Definition handlerOf (props : DelegationProps) (g : Gesture) : MouseEvent -> Run :=
  match g with
  | Click => onElClick props
  | DoubleClick => onElDoubleClick props
  | ContextMenu => onElContextMenu props
  | MouseMove => onElMouseMove props
  end.

End WithJSON.

End ReactFlowLogged.

(** ** container/ReactFlow, the newer version *)

Module ReactFlow.
Import Js Dom.

Section WithJSON.
Variable JSON_parse : string -> option Json.

Definition parseAttr (attr : option string) : option Json :=
  match attr with
  | Some s => JSON_parse s
  | None => None
  end.

Fixpoint findNodeOrEdge (node : HTMLElement) (ancestors : list HTMLElement)
    (listeningEl : HTMLElement) {struct ancestors} : option HTMLElement :=
  let elType := dataset node !! "eltype" in
  if truthy elType then Some node
  else
    match ancestors with
    | [] => None
    | parentElement :: rest =>
        if sameElement parentElement listeningEl then None
        else findNodeOrEdge parentElement rest listeningEl
    end.

Definition eventHandlersDecorator (nodeCallback edgeCallback : option Handler)
    (event : MouseEvent) : Run :=
  if negb (supplied nodeCallback) && negb (supplied edgeCallback) then ret
  else
    match findNodeOrEdge (target event) (targetAncestors event) (currentTarget event) with
    | None => ret
    | Some data =>
        let elType := dataset data !! "eltype" in
        if looseEq elType "node" && supplied nodeCallback then
          if truthy (dataset data !! "nodedata") then
            match parseAttr (dataset data !! "nodedata") with
            | None => throw
            | Some node => call nodeCallback event node
            end
          else ret
        else if looseEq elType "edge" && supplied edgeCallback then
          if truthy (dataset data !! "edgedata") then
            match parseAttr (dataset data !! "edgedata") with
            | None => throw
            | Some edge => call edgeCallback event edge
            end
          else ret
        else ret
    end.

Definition onElClick (props : DelegationProps) : MouseEvent -> Run :=
  eventHandlersDecorator (onNodeClick props) (onEdgeClick props).

Definition onElDoubleClick (props : DelegationProps) : MouseEvent -> Run :=
  eventHandlersDecorator (onNodeDoubleClick props) (onEdgeDoubleClick props).

Definition onElContextMenu (props : DelegationProps) : MouseEvent -> Run :=
  eventHandlersDecorator (onNodeContextMenu props) (onEdgeContextMenu props).

Definition onElMouseMove (props : DelegationProps) : MouseEvent -> Run :=
  eventHandlersDecorator (onNodeMouseMove props) (onEdgeMouseMove props).

(** [onClk]: the [onClick] prop, when given, is called before the
    delegation. *)
Definition onClk (props : DelegationProps) (event : MouseEvent) : Run :=
  andThen
    (match onClick props with
     | Some f => emit (Notify f event)
     | None => ret
     end)
    (onElClick props event).

(** The handler the rendered [div] has for a gesture. *)
Definition handlerOf (props : DelegationProps) (g : Gesture) : MouseEvent -> Run :=
  match g with
  | Click => onClk props
  | DoubleClick => onElDoubleClick props
  | ContextMenu => onElContextMenu props
  | MouseMove => onElMouseMove props
  end.

(** [a !== b] for an attribute [a] (a string or [undefined]) and a
    recorded type [b] (a string or [null]). *)
Definition attrDiffers (a b : option string) : bool :=
  match a, b with
  | Some s, Some t => negb (String.eqb s t)
  | _, _ => true
  end.

(** [fresh.id !== currentHovered?.el?.id], evaluated when
    [currentHovered.el] is truthy; [None] is the TypeError of [null.id]. *)
Definition idDiffers (fresh : Json) (hovered : Json) : option bool :=
  match getId fresh with
  | None => None
  | Some i => Some (negb (strictEq i (getIdOpt hovered)))
  end.

(** The handler returned by [hoverEventHandlersDecorator]; [currentHovered]
    is the value captured by the closure. *)
Definition hoverEventHandlersDecorator (currentHovered : Hovered)
    (nodeEnterCallback edgeEnterCallback nodeLeaveCallback edgeLeaveCallback : option Handler)
    (event : MouseEvent) : Run :=
  if negb (supplied nodeEnterCallback) && negb (supplied edgeEnterCallback) then ret
  else
    match findNodeOrEdge (target event) (targetAncestors event) (currentTarget event) with
    | None =>
        if supplied edgeLeaveCallback && looseEq (hovElType currentHovered) "edge" then
          andThen (call edgeLeaveCallback event (hovEl currentHovered))
                  (emit (SetCurrentHovered (mkHovered None JNull)))
        else if supplied nodeLeaveCallback && looseEq (hovElType currentHovered) "node" then
          andThen (call nodeLeaveCallback event (hovEl currentHovered))
                  (emit (SetCurrentHovered (mkHovered None JNull)))
        else ret
    | Some data =>
        let elType := dataset data !! "eltype" in
        if looseEq elType "node" && supplied nodeEnterCallback then
          if truthy (dataset data !! "nodedata") then
            match parseAttr (dataset data !! "nodedata") with
            | None => throw
            | Some node =>
                andThen
                  (if attrDiffers elType (hovElType currentHovered)
                      && supplied edgeLeaveCallback && truthyJson (hovEl currentHovered)
                   then call edgeLeaveCallback event (hovEl currentHovered)
                   else if truthyJson (hovEl currentHovered) then
                     match idDiffers node (hovEl currentHovered) with
                     | None => throw
                     | Some differs =>
                         if differs && supplied nodeLeaveCallback
                         then call nodeLeaveCallback event (hovEl currentHovered)
                         else ret
                     end
                   else ret)
                  (andThen (emit (SetCurrentHovered (mkHovered elType node)))
                           (call nodeEnterCallback event node))
            end
          else ret
        else if looseEq elType "edge" && supplied edgeEnterCallback then
          if truthy (dataset data !! "edgedata") then
            match parseAttr (dataset data !! "edgedata") with
            | None => throw
            | Some edge =>
                andThen
                  (if truthyJson (hovEl currentHovered)
                      && attrDiffers elType (hovElType currentHovered)
                      && supplied nodeLeaveCallback
                   then call nodeLeaveCallback event (hovEl currentHovered)
                   else if truthyJson (hovEl currentHovered) then
                     match idDiffers edge (hovEl currentHovered) with
                     | None => throw
                     | Some differs =>
                         if differs && supplied edgeLeaveCallback
                         then call edgeLeaveCallback event (hovEl currentHovered)
                         else ret
                     end
                   else ret)
                  (andThen (emit (SetCurrentHovered (mkHovered elType edge)))
                           (call edgeEnterCallback event edge))
            end
          else ret
        else ret
    end.

(** *** The component around the hover handler

    The four hover props of one render of [ReactFlow]. *)
Record HoverProps := mkHoverProps {
  onNodeMouseEnter : option Handler;
  onEdgeMouseEnter : option Handler;
  onNodeMouseLeave : option Handler;
  onEdgeMouseLeave : option Handler
}.

(** What a handler made by [hoverEventHandlersDecorator] closes over.  The
    decorator itself is memoised on [currentHovered], so a handler made
    during a render closes over the [currentHovered] of that render. *)
Record HoverClosure := mkClosure {
  capturedHovered : Hovered;
  capturedProps : HoverProps
}.

Definition runClosure (c : HoverClosure) (event : MouseEvent) : Run :=
  hoverEventHandlersDecorator (capturedHovered c)
    (onNodeMouseEnter (capturedProps c)) (onEdgeMouseEnter (capturedProps c))
    (onNodeMouseLeave (capturedProps c)) (onEdgeMouseLeave (capturedProps c)) event.

(** [Object.is] on two callback props. *)
Definition sameCallback (a b : option Handler) : bool :=
  match a, b with
  | Some f, Some g => Nat.eqb f g
  | None, None => true
  | _, _ => false
  end.

Fixpoint sameDeps (a b : list (option Handler)) : bool :=
  match a, b with
  | [], [] => true
  | x :: a', y :: b' => sameCallback x y && sameDeps a' b'
  | _, _ => false
  end.

(** A [useCallback] slot: the dependencies and the value kept for them. *)
Record Memo (A : Type) := mkMemo {
  memoDeps : list (option Handler);
  memoValue : A
}.
Arguments mkMemo {A}.
Arguments memoDeps {A}.
Arguments memoValue {A}.

(** [useCallback(fn, deps)]: the value of the previous render is kept while
    the dependencies are the same. *)
Definition useCallback {A} (slot : option (Memo A)) (fn : A)
    (deps : list (option Handler)) : Memo A :=
  match slot with
  | Some m => if sameDeps (memoDeps m) deps then m else mkMemo deps fn
  | None => mkMemo deps fn
  end.

(** The part of the component instance the hover handling lives in: the
    [useState] cell and the [useCallback] slot of [onElMouseEnter]. *)
Record Instance := mkInstance {
  currentHovered : Hovered;
  onElMouseEnter : Memo HoverClosure
}.

(** One render: [onElMouseEnter] is memoised on the two enter props. *)
Definition render (props : HoverProps) (hovered : Hovered)
    (slot : option (Memo HoverClosure)) : Instance :=
  mkInstance hovered
    (useCallback slot (mkClosure hovered props)
       [onNodeMouseEnter props; onEdgeMouseEnter props]).

Definition mount (props : HoverProps) : Instance :=
  render props (mkHovered None JNull) None.

(** The state after the [setCurrentHovered] calls of a handler. *)
Fixpoint applySetState (hovered : Hovered) (effects : list Effect) : Hovered :=
  match effects with
  | [] => hovered
  | SetCurrentHovered h :: rest => applySetState h rest
  | _ :: rest => applySetState hovered rest
  end.

(** A [mouseover] reaches the mounted handler; the state updates are
    applied and the component renders again with [props]. *)
Definition mouseOver (props : HoverProps) (inst : Instance) (event : MouseEvent)
    : Instance * Run :=
  let run := runClosure (memoValue (onElMouseEnter inst)) event in
  (render props (applySetState (currentHovered inst) run.1) (Some (onElMouseEnter inst)),
   run).

(** A sequence of [mouseover] events, the props being the same at every
    render; the runs of the handler are returned in order. *)
Fixpoint mouseOvers (props : HoverProps) (inst : Instance) (events : list MouseEvent)
    : Instance * list Run :=
  match events with
  | [] => (inst, [])
  | event :: rest =>
      let step := mouseOver props inst event in
      let tail := mouseOvers props step.1 rest in
      (tail.1, step.2 :: tail.2)
  end.

End WithJSON.

Arguments mkMemo {A}.
Arguments memoDeps {A}.
Arguments memoValue {A}.

End ReactFlow.

(** ** Shared types ([types]) *)

Module Types.
Import Js.

Record XYPosition := mkXY { x : number; y : number }.

Inductive Position := Left | Top | Right | Bottom.

#[global] Instance Position_eq_dec : EqDecision Position.
Proof. solve_decision. Defined.

Inductive ConnectionMode := Strict | Loose.
Inductive SelectionMode := Partial | Full.

Record Viewport := mkViewport { vx : number; vy : number; zoom : number }.

(** A coordinate of an extent; the infinite extent needs the two
    infinities of a JavaScript number. *)
Inductive Bound := NegInfinity | Finite (n : number) | PosInfinity.

(** [[x0, y0], [x1, y1]] *)
Definition CoordinateExtent := ((Bound * Bound) * (Bound * Bound))%type.

(** A node with a payload of type [D]. *)
Record Node (D : Type) := mkNode {
  nodeId : string;
  position : XYPosition;
  data : D;
  nodeType : option string
}.
Arguments mkNode {D}.
Arguments nodeId {D}.
Arguments position {D}.
Arguments data {D}.
Arguments nodeType {D}.

End Types.

(** ** components/Nodes/wrapNode *)

Module WrapNode.
Import Js Types.

(** *** String helpers of the message built in [onKeyDown] *)

Definition dropChars (n : nat) (s : string) : string :=
  String.substring n (String.length s - n) s.

(** [s.replace(pat, rep)] for a string pattern: the first occurrence. *)
Fixpoint replaceFirst (pat rep s : string) : string :=
  if String.prefix pat s then rep +:+ dropChars (String.length pat) s
  else
    match s with
    | EmptyString => EmptyString
    | String c rest => String c (replaceFirst pat rep rest)
    end.

Definition lowerAscii (c : ascii) : ascii :=
  let n := nat_of_ascii c in
  if (65 <=? n)%nat && (n <=? 90)%nat then ascii_of_nat (n + 32) else c.

(** [s.toLowerCase()] on the ASCII letters. *)
Fixpoint toLowerCase (s : string) : string :=
  match s with
  | EmptyString => EmptyString
  | String c rest => String (lowerAscii c) (toLowerCase rest)
  end.

(** [~~v]: truncation towards zero, then wrap-around to 32 bits. *)
Definition toInt32 (v : number) : Z :=
  let t := if Qle_bool 0 v then Qfloor v else Qceiling v in
  ((t + 2 ^ 31) mod 2 ^ 32 - 2 ^ 31)%Z.

Definition arrowKeyDiffs : gmap string XYPosition :=
  {[ "ArrowUp" := mkXY 0%Q (-1)%Q;
     "ArrowDown" := mkXY 0%Q 1%Q;
     "ArrowLeft" := mkXY (-1)%Q 0%Q;
     "ArrowRight" := mkXY 1%Q 0%Q ]}.

Record KeyboardEvent := mkKey {
  key : string;
  shiftKey : bool;
  (** what [isInputDOMNode] of [utils] answers for the event *)
  isInputDOMNode : bool
}.

(** A CSS value of the inline style. *)
Inductive CssValue :=
| CssNumber (n : number)
| CssText (s : string)
| CssTranslate (xPx yPx : number).

Record WrapNodeProps (D : Type) := mkWrapNodeProps {
  id : string;
  type : string;
  data : D;
  xPos : number;
  yPos : number;
  xPosOrigin : number;
  yPosOrigin : number;
  selected : bool;
  style : gmap string CssValue;
  className : option string;
  isDraggable : bool;
  isSelectable : bool;
  isConnectable : bool;
  isFocusable : bool;
  selectNodesOnDrag : bool;
  sourcePosition : option Position;
  targetPosition : option Position;
  hidden : bool;
  dragHandle : option string;
  zIndex : number;
  isParent : bool;
  noDragClassName : string;
  noPanClassName : string;
  initialized : bool;
  disableKeyboardA11y : bool;
  ariaLabel : option string;
  rfId : string
}.
Arguments id {D}.
Arguments type {D}.
Arguments data {D}.
Arguments xPos {D}.
Arguments yPos {D}.
Arguments xPosOrigin {D}.
Arguments yPosOrigin {D}.
Arguments selected {D}.
Arguments style {D}.
Arguments className {D}.
Arguments isDraggable {D}.
Arguments isSelectable {D}.
Arguments isConnectable {D}.
Arguments isFocusable {D}.
Arguments selectNodesOnDrag {D}.
Arguments sourcePosition {D}.
Arguments targetPosition {D}.
Arguments hidden {D}.
Arguments dragHandle {D}.
Arguments zIndex {D}.
Arguments isParent {D}.
Arguments noDragClassName {D}.
Arguments noPanClassName {D}.
Arguments initialized {D}.
Arguments disableKeyboardA11y {D}.
Arguments ariaLabel {D}.
Arguments rfId {D}.

(** The props handed to the custom node component. *)
Record NodeProps (D : Type) := mkNodeProps {
  np_id : string;
  np_data : D;
  np_type : string;
  np_xPos : number;
  np_yPos : number;
  np_selected : bool;
  np_isConnectable : bool;
  np_sourcePosition : option Position;
  np_targetPosition : option Position;
  np_dragging : bool;
  np_dragHandle : option string;
  np_zIndex : number
}.
Arguments mkNodeProps {D}.
Arguments np_data {D}.

(** The rendered [div] of the wrapper around the custom node component. *)
Record NodeElement (D : Type) := mkNodeElement {
  el_className : list string;
  el_style : gmap string CssValue;
  el_data_id : string;
  el_data_testid : string;
  el_onKeyDown : bool;
  el_tabIndex : option Z;
  el_role : option string;
  el_aria_describedby : option string;
  el_aria_label : option string;
  el_data_nodedata : option string;
  el_data_eltype : string;
  el_child : NodeProps D
}.
Arguments mkNodeElement {D}.
Arguments el_data_nodedata {D}.
Arguments el_child {D}.

(** What [onKeyDown] and the re-measure effect do to the store and the
    hooks. *)
Inductive StoreCall :=
| HandleNodeClick (nodeId : string) (unselect : bool)
| SetAriaLiveMessage (message : string)
| UpdatePositions (dx dy : number) (isShiftPressed : bool)
| UpdateNodeDimensions (nodeId : string) (forceUpdate : bool).

(** The refs of the wrapper: [nodeRef.current] is the mounted [div], the
    other three remember the props of the last measurement. *)
Record Refs := mkRefs {
  nodeRef : bool;
  prevType : string;
  prevSourcePosition : option Position;
  prevTargetPosition : option Position
}.

(** [cc([...])] on an entry that is a string or [undefined]. *)
Definition ccText (s : option string) : list string :=
  match s with
  | Some c => if String.eqb c EmptyString then [] else [c]
  | None => []
  end.

(** [cc([...])] on one [{name: flag}] entry. *)
Definition ccFlag (name : string) (flag : bool) : list string :=
  if flag then ccText (Some name) else [].

Section Wrapper.
Context {D : Type}.
(** [elementSelectionKeys] of [utils]. *)
Variable elementSelectionKeys : list string.
(** [ARIA_NODE_DESC_KEY] of [A11yDescriptions]. *)
Variable ARIA_NODE_DESC_KEY : string.
(** [dataToAttribute] of [utils]. *)
Variable dataToAttribute : option (Node D) -> string -> option string.

Definition ariaLiveMessage (k : string) (xPos yPos : number) : string :=
  "Moved selected node " +:+ toLowerCase (replaceFirst "Arrow" EmptyString k)
  +:+ ". New position, x: " +:+ pretty (toInt32 xPos)
  +:+ ", y: " +:+ pretty (toInt32 yPos).

Definition onKeyDown (props : WrapNodeProps D) (event : KeyboardEvent) : list StoreCall :=
  if isInputDOMNode event then []
  else if existsb (String.eqb (key event)) elementSelectionKeys && isSelectable props then
    let unselect := String.eqb (key event) "Escape" in
    [HandleNodeClick (id props) unselect]
  else if negb (disableKeyboardA11y props) && isDraggable props && selected props
          && bool_decide (is_Some (arrowKeyDiffs !! key event)) then
    match arrowKeyDiffs !! key event with
    | Some diff =>
        [SetAriaLiveMessage (ariaLiveMessage (key event) (xPos props) (yPos props));
         UpdatePositions (x diff) (y diff) (shiftKey event)]
    | None => []
    end
  else [].

(** The effect that re-initialises the node when its type or a handle
    position was changed. *)
Definition remeasureEffect (props : WrapNodeProps D) (refs : Refs) : Refs * list StoreCall :=
  let typeChanged := negb (String.eqb (prevType refs) (type props)) in
  let sourcePosChanged :=
    negb (bool_decide (prevSourcePosition refs = sourcePosition props)) in
  let targetPosChanged :=
    negb (bool_decide (prevTargetPosition refs = targetPosition props)) in
  if nodeRef refs && (typeChanged || sourcePosChanged || targetPosChanged) then
    (mkRefs (nodeRef refs)
       (if typeChanged then type props else prevType refs)
       (if sourcePosChanged then sourcePosition props else prevSourcePosition refs)
       (if targetPosChanged then targetPosition props else prevTargetPosition refs),
     [UpdateNodeDimensions (id props) true])
  else (refs, []).

(** The render of [NodeWrapper]; [dragging] is what [useDrag] returned and
    [nodeInternals] the map of the store. *)
Definition NodeWrapper (props : WrapNodeProps D) (dragging : bool)
    (nodeInternals : gmap string (Node D)) : option (NodeElement D) :=
  let hasPointerEvents := isSelectable props || isDraggable props in
  if hidden props then None
  else
    let node := nodeInternals !! id props in
    let nodeDataProps := dataToAttribute node "node" in
    Some (mkNodeElement
      (ccText (Some "react-flow__node")
       ++ ccText (Some ("react-flow__node-" +:+ type props))
       ++ ccFlag (noPanClassName props) (isDraggable props)
       ++ ccText (className props)
       ++ ccFlag "selected" (selected props)
       ++ ccFlag "selectable" (isSelectable props)
       ++ ccFlag "parent" (isParent props)
       ++ ccFlag "dragging" dragging)
      (style props ∪
       {[ "zIndex" := CssNumber (zIndex props);
          "transform" := CssTranslate (xPosOrigin props) (yPosOrigin props);
          "pointerEvents" := CssText (if hasPointerEvents then "all" else "none");
          "visibility" := CssText (if initialized props then "visible" else "hidden") ]})
      (id props)
      ("rf__node-" +:+ id props)
      (isFocusable props)
      (if isFocusable props then Some 0%Z else None)
      (if isFocusable props then Some "button" else None)
      (if disableKeyboardA11y props then None
       else Some (ARIA_NODE_DESC_KEY +:+ "-" +:+ rfId props))
      (ariaLabel props)
      nodeDataProps
      "node"
      (mkNodeProps (id props) (data props) (type props) (xPos props) (yPos props)
         (selected props) (isConnectable props) (sourcePosition props)
         (targetPosition props) dragging (dragHandle props) (zIndex props))).

End Wrapper.

End WrapNode.

(** ** container/ReactFlow: the configuration props and their defaults

    Both versions of the container destructure the same props with the same
    defaults and hand them to [GraphView] and [StoreUpdater] in the same
    way.  An omitted prop is [None]; a default applies to [None] only. *)

Module Container.
Import Js Types.

Record ReactFlowProps := mkReactFlowProps {
  connectionMode : option ConnectionMode;
  selectionMode : option SelectionMode;
  snapToGrid : option bool;
  snapGrid : option (number * number);
  nodeOrigin : option (number * number);
  defaultViewport : option Viewport;
  minZoom : option number;
  maxZoom : option number;
  translateExtent : option CoordinateExtent;
  nodeExtent : option CoordinateExtent;
  connectionRadius : option number
}.

Record GraphViewProps := mkGraphViewProps {
  gv_selectionMode : SelectionMode;
  gv_defaultViewport : Viewport;
  gv_translateExtent : CoordinateExtent;
  gv_minZoom : number;
  gv_maxZoom : number;
  gv_nodeOrigin : number * number;
  gv_nodeExtent : option CoordinateExtent
}.

Record StoreUpdaterProps := mkStoreUpdaterProps {
  su_minZoom : number;
  su_maxZoom : number;
  su_nodeExtent : option CoordinateExtent;
  su_snapToGrid : bool;
  su_snapGrid : number * number;
  su_connectionMode : ConnectionMode;
  su_translateExtent : CoordinateExtent;
  su_nodeOrigin : number * number;
  su_connectionRadius : number
}.

Definition initNodeOrigin : number * number := (0%Q, 0%Q).
Definition initSnapGrid : number * number := (15%Q, 15%Q).
Definition initDefaultViewport : Viewport := mkViewport 0%Q 0%Q 1%Q.

Section WithInitialState.
(** [infiniteExtent] of [store/initialState]. *)
Variable infiniteExtent : CoordinateExtent.

(** The two children of the container that receive configuration. *)
Definition ReactFlow (props : ReactFlowProps) : GraphViewProps * StoreUpdaterProps :=
  let connectionMode := default Strict (connectionMode props) in
  let selectionMode := default Full (selectionMode props) in
  let snapToGrid := default false (snapToGrid props) in
  let snapGrid := default initSnapGrid (snapGrid props) in
  let nodeOrigin := default initNodeOrigin (nodeOrigin props) in
  let defaultViewport := default initDefaultViewport (defaultViewport props) in
  let minZoom := default 0.5%Q (minZoom props) in
  let maxZoom := default 2%Q (maxZoom props) in
  let translateExtent := default infiniteExtent (translateExtent props) in
  let nodeExtent := nodeExtent props in
  let connectionRadius := default 20%Q (connectionRadius props) in
  (mkGraphViewProps selectionMode defaultViewport translateExtent minZoom maxZoom
     nodeOrigin nodeExtent,
   mkStoreUpdaterProps minZoom maxZoom nodeExtent snapToGrid snapGrid connectionMode
     translateExtent nodeOrigin connectionRadius).

End WithInitialState.

End Container.

(** ** The viewport of the graph store

    The container hands [defaultViewport], [minZoom] and [maxZoom] to
    [GraphView]; the code that keeps the viewport is not among the sources
    and is modelled from the spec here. *)

Module ViewportStore.
Import Js Types Container.

(** Modelled from the spec: [clamp] of [utils], which section 4.6 uses to
    bring a value into a closed interval: the larger of [val] and [lo],
    cut at [hi]. *)
Definition clamp (val lo hi : number) : number := Qmin (Qmax val lo) hi.

(** Modelled from the spec: the viewport state behind [GraphView], which
    is not among the sources.  The spec keeps the zoom bounded to
    [minZoom, maxZoom]; the bounds and the viewport are kept together. *)
Record State := mkState {
  viewport : Viewport;
  stMinZoom : number;
  stMaxZoom : number
}.

(** Modelled from the spec: the initialization of the viewport behind
    [GraphView], which is not among the sources.  A configuration whose
    zoom bounds leave no admissible zoom is a malformed viewport and fails
    at construction (section 7); every other configuration is accepted and
    the initial zoom is brought into the bounds (section 3). *)
Definition construct (gv : GraphViewProps) : option State :=
  if Qle_bool (gv_minZoom gv) (gv_maxZoom gv) then
    Some (mkState
            (mkViewport (vx (gv_defaultViewport gv)) (vy (gv_defaultViewport gv))
               (clamp (zoom (gv_defaultViewport gv)) (gv_minZoom gv) (gv_maxZoom gv)))
            (gv_minZoom gv) (gv_maxZoom gv))
  else None.

(** Modelled from the spec: the bounding box of a node set (section 4.6),
    [x, y, width, height] in flow space. *)
Record Rect := mkRect { rx : number; ry : number; rwidth : number; rheight : number }.

(** Modelled from the spec: the viewport mutations of sections 3 and 4.6:
    a requested viewport, a pan, a zoom request and fit-view on the bounds
    of the nodes in a viewer of the given size. *)
Inductive Mutation :=
| SetViewport (v : Viewport)
| PanBy (dx dy : number)
| ZoomTo (z : number)
| FitView (bounds : Rect) (viewWidth viewHeight padding : number).

(** Modelled from the spec: (section 4.6)
    [zoom = clamp(min(vw / bw, vh / bh) * (1 - padding), minZoom, maxZoom)]
    and [pan = viewportCenter - boxCenter * zoom].  Division is the total
    division of [Q]. *)
Definition fitView (st : State) (bounds : Rect) (viewWidth viewHeight padding : number)
    : Viewport :=
  let z := clamp (Qmin (viewWidth / rwidth bounds) (viewHeight / rheight bounds)
                  * (1 - padding))%Q
                 (stMinZoom st) (stMaxZoom st) in
  mkViewport (viewWidth / 2 - (rx bounds + rwidth bounds / 2) * z)%Q
             (viewHeight / 2 - (ry bounds + rheight bounds / 2) * z)%Q
             z.

(** Modelled from the spec: one viewport mutation; every zoom it sets is
    brought into the bounds (section 3), the bounds stay as configured. *)
Definition mutate (st : State) (m : Mutation) : State :=
  let bounded z := clamp z (stMinZoom st) (stMaxZoom st) in
  let next :=
    match m with
    | SetViewport v => mkViewport (vx v) (vy v) (bounded (zoom v))
    | PanBy dx dy =>
        mkViewport (vx (viewport st) + dx)%Q (vy (viewport st) + dy)%Q (zoom (viewport st))
    | ZoomTo z => mkViewport (vx (viewport st)) (vy (viewport st)) (bounded z)
    | FitView bounds viewWidth viewHeight padding =>
        fitView st bounds viewWidth viewHeight padding
    end in
  mkState next (stMinZoom st) (stMaxZoom st).

(** Modelled from the spec: mutations are applied one after the other
    (section 5). *)
Definition mutations (st : State) (ms : list Mutation) : State :=
  fold_left mutate ms st.

(** Modelled from the spec: the invariant of section 3, zoom within
    [minZoom, maxZoom]. *)
Definition zoomInBounds (st : State) : Prop :=
  (stMinZoom st <= zoom (viewport st) /\ zoom (viewport st) <= stMaxZoom st)%Q.

End ViewportStore.

(** ** The node part of the graph store

    The node wrapper reports to [updateNodeDimensions] of the store and
    asks for position updates through [useUpdateNodePositions]; neither
    the store nor the hook is among the sources, and both are modelled
    from the spec here. *)

Module GraphStore.
Import Js Types.

(** Modelled from the spec: the measured dimensions of a node. *)
Record Size := mkSize { width : number; height : number }.

(** Modelled from the spec: a bounding box, by its two corners. *)
Record Box := mkBox { bx1 : number; by1 : number; bx2 : number; by2 : number }.

(** Modelled from the spec: the extent of a node (section 3): none, the
    parent, or an explicit bounding box. *)
Inductive Extent := ExtentNone | ExtentParent | ExtentBox (limits : Box).

(** Modelled from the spec: the internal representation of a node in the
    store, which is not among the sources (sections 3 and 4.1).  The
    position is the absolute one the store recomputes on reconciliation;
    the origin is the fractional anchor of the node. *)
Record SNode := mkSNode {
  position : XYPosition;
  origin : number * number;
  parentId : option string;
  extent : Extent;
  draggable : bool;
  selected : bool
}.

(** Modelled from the spec: the node map of the store and, per node id, the
    measured width and height (absent until reported). *)
Record Store := mkStore {
  nodes : gmap string SNode;
  measured : gmap string Size
}.

(** Modelled from the spec: one report of the resize-observation
    collaborator (section 6), with the [forceUpdate] flag the node wrapper
    sends. *)
Record Measurement := mkMeasurement {
  mId : string;
  mSize : Size;
  forceUpdate : bool
}.

(** Modelled from the spec: one record of a position change batch. *)
Record PositionChange := mkPositionChange {
  changeId : string;
  changePosition : XYPosition;
  changeDragging : bool
}.

(** Modelled from the spec: the absolute bounding box of a node, position
    plus measured size, using its origin (section 4.2). *)
Definition boxOf (n : SNode) (s : Size) : Box :=
  let left := (x (position n) - (origin n).1 * width s)%Q in
  let top := (y (position n) - (origin n).2 * height s)%Q in
  mkBox left top (left + width s)%Q (top + height s)%Q.

(** Modelled from the spec: a node without a measurement has no box; it
    is left out of bounds (section 5). *)
Definition nodeBox (st : Store) (id : string) : option Box :=
  match nodes st !! id, measured st !! id with
  | Some n, Some s => Some (boxOf n s)
  | _, _ => None
  end.

(** Modelled from the spec: the box [inner] fits within the box [outer]. *)
Definition within (inner outer : Box) : bool :=
  Qle_bool (bx1 outer) (bx1 inner) && Qle_bool (by1 outer) (by1 inner)
  && Qle_bool (bx2 inner) (bx2 outer) && Qle_bool (by2 inner) (by2 outer).

(** Modelled from the spec: the smallest box containing two boxes. *)
Definition unionBox (a b : Box) : Box :=
  mkBox (Qmin (bx1 a) (bx1 b)) (Qmin (by1 a) (by1 b))
        (Qmax (bx2 a) (bx2 b)) (Qmax (by2 a) (by2 b)).

(** Modelled from the spec: a box plus a margin on every side. *)
Definition grow (m : number) (b : Box) : Box :=
  mkBox (bx1 b - m)%Q (by1 b - m)%Q (bx2 b + m)%Q (by2 b + m)%Q.

(** Modelled from the spec: the boxes of the measured immediate children
    of [pid]. *)
Definition childBoxes (st : Store) (pid : string) : list Box :=
  omap (fun entry : string * SNode =>
          if bool_decide (parentId entry.2 = Some pid) then nodeBox st entry.1 else None)
       (map_to_list (nodes st)).

(** *** updateNodePositions *)

(** Modelled from the spec: the bounding constraint of a node: none, the
    box of its parent, or an explicit box. *)
Definition limitsOf (st : Store) (n : SNode) : option Box :=
  match extent n with
  | ExtentNone => None
  | ExtentBox b => Some b
  | ExtentParent =>
      match parentId n with
      | Some pid => nodeBox st pid
      | None => None
      end
  end.

(** Modelled from the spec: a position clamped to the bounding constraint
    (section 7, OutOfExtent: clamped, not rejected). *)
Definition clampPosition (p : XYPosition) (limits : option Box) : XYPosition :=
  match limits with
  | None => p
  | Some b => mkXY (ViewportStore.clamp (x p) (bx1 b) (bx2 b))
                   (ViewportStore.clamp (y p) (by1 b) (by2 b))
  end.

(** Modelled from the spec: the nodes a position update moves: the
    dragged one and every selected draggable node. *)
Definition moves (dragged : string) (id : string) (n : SNode) : bool :=
  String.eqb id dragged || (selected n && draggable n).

(** Modelled from the spec: the node after the delta was applied and the
    result clamped to its extent. *)
Definition moved (st : Store) (delta : XYPosition) (n : SNode) : SNode :=
  mkSNode (clampPosition (mkXY (x (position n) + x delta)%Q (y (position n) + y delta)%Q)
             (limitsOf st n))
          (origin n) (parentId n) (extent n) (draggable n) (selected n).

(** Modelled from the spec: [updateNodePositions] of the store, which is
    not among the sources (section 4.1): it applies the delta to the
    dragged node and identically to every other selected draggable node,
    clamps each result to the extent of its node and emits the batch of
    position changes. *)
Definition updateNodePositions (st : Store) (delta : XYPosition) (dragged : string)
    (dragging : bool) : Store * list PositionChange :=
  let next :=
    map_imap (fun id n => Some (if moves dragged id n then moved st delta n else n))
             (nodes st) in
  (mkStore next (measured st),
   omap (fun entry : string * SNode =>
           if moves dragged entry.1 entry.2
           then Some (mkPositionChange entry.1 (position (moved st delta entry.2)) dragging)
           else None)
        (map_to_list (nodes st))).

(** *** updateNodeDimensions *)

Section ParentExpansion.
(** The fixed margin of the parent expansion (section 4.2), whose value
    the spec leaves open. *)
Variable margin : number.

(** Modelled from the spec: (section 4.2) the parent is enlarged to the
    smallest box containing its own current box and the boxes of all its
    immediate children, plus the margin. *)
Definition enlarge (st : Store) (pid : string) : Store :=
  match nodes st !! pid, nodeBox st pid with
  | Some p, Some own =>
      let b := grow margin (foldr unionBox own (childBoxes st pid)) in
      let s := mkSize (bx2 b - bx1 b)%Q (by2 b - by1 b)%Q in
      let p' := mkSNode (mkXY (bx1 b + (origin p).1 * width s)%Q
                              (by1 b + (origin p).2 * height s)%Q)
                        (origin p) (parentId p) (extent p) (draggable p) (selected p) in
      mkStore (<[pid := p']> (nodes st)) (<[pid := s]> (measured st))
  | _, _ => st
  end.

(** Modelled from the spec: (sections 4.1, 4.2 and 9) when the box of [id]
    does not fit within the measured box of its parent, the parent is
    enlarged, and so on for the ancestors of the parent.  A parent that
    closes a cycle is treated as absent. *)
Fixpoint expandAncestors (fuel : nat) (visited : list string) (st : Store) (id : string)
    : Store :=
  match fuel with
  | O => st
  | S fuel' =>
      match nodes st !! id with
      | Some n =>
          match parentId n with
          | Some pid =>
              if bool_decide (pid ∈ visited) then st
              else
                match nodeBox st id, nodeBox st pid with
                | Some cb, Some pb =>
                    if within cb pb then st
                    else expandAncestors fuel' (pid :: visited) (enlarge st pid) pid
                | _, _ => st
                end
          | None => st
          end
      | None => st
      end
  end.

(** Modelled from the spec: one report to [updateNodeDimensions] of the
    store, which is not among the sources (section 4.1): the upsert of the
    measured width and height of one node id, followed by the parent
    expansion. *)
Definition reportDimensions (st : Store) (m : Measurement) : Store :=
  let st1 := mkStore (nodes st) (<[mId m := mSize m]> (measured st)) in
  expandAncestors (S (size (nodes st1))) [mId m] st1 (mId m).

(** Modelled from the spec: [updateNodeDimensions] of the store, which is
    not among the sources (section 4.1); the measurements of a batch are
    taken in order. *)
Definition updateNodeDimensions (st : Store) (ms : list Measurement) : Store :=
  fold_left reportDimensions ms st.

End ParentExpansion.

End GraphStore.

(** ** The edge router

    [getStraightPath], [getBezierPath], [getSimpleBezierPath] and
    [getSmoothStepPath] are re-exported by the package index; the modules
    that define them are not among the sources, and the router is modelled
    from section 4.3 of the spec here. *)

Module EdgeRouter.
Import Js Types.

(** Modelled from the spec: (section 4.3) a path description is an ordered
    list of points whose bends are rounded with a corner radius, or a
    cubic curve by its end points and control points. *)
Inductive Path :=
| Polyline (points : list XYPosition) (cornerRadius : number)
| Cubic (source sourceControl targetControl target : XYPosition).

(** Modelled from the spec: the output of a routing function. *)
Record Route := mkRoute { path : Path; labelAnchor : XYPosition }.

(** Modelled from the spec: the number of bends the decision table
    selects. *)
Inductive Bends := ZeroBend | OneBend | TwoBend.

(** Modelled from the spec: the configuration of the routing functions:
    the distance a detour keeps from the handles, the corner radius of
    smoothstep and the curvature factor of bezier. *)
Record Options := mkOptions { offset : number; borderRadius : number; curvature : number }.

(** Modelled from the spec: the midpoint of a segment. *)
Definition midpoint (a b : XYPosition) : XYPosition :=
  mkXY ((x a + x b) / 2)%Q ((y a + y b) / 2)%Q.

(** Modelled from the spec: a handle on the left or the right faces along
    the x axis, one on the top or the bottom along the y axis. *)
Definition horizontal (p : Position) : bool :=
  match p with Left | Right => true | Top | Bottom => false end.

(** Modelled from the spec: the unit vector of a facing direction. *)
Definition facing (p : Position) : XYPosition :=
  match p with
  | Left => mkXY (-1)%Q 0%Q
  | Right => mkXY 1%Q 0%Q
  | Top => mkXY 0%Q (-1)%Q
  | Bottom => mkXY 0%Q 1%Q
  end.

(** Modelled from the spec: the two handles are exactly aligned on the
    axis perpendicular to the facing direction [p]. *)
Definition aligned (p : Position) (s t : XYPosition) : bool :=
  if horizontal p then Qeq_bool (y s) (y t) else Qeq_bool (x s) (x t).

(** Modelled from the spec: the fixed decision table keyed by the two
    facings (16 combinations): handles facing along the same axis are
    joined with two bends, handles facing along different axes with one. *)
Definition bendTable (sourceFacing targetFacing : Position) : Bends :=
  match sourceFacing, targetFacing with
  | Left, Left | Left, Right | Right, Left | Right, Right => TwoBend
  | Top, Top | Top, Bottom | Bottom, Top | Bottom, Bottom => TwoBend
  | Left, Top | Left, Bottom | Right, Top | Right, Bottom => OneBend
  | Top, Left | Top, Right | Bottom, Left | Bottom, Right => OneBend
  end.

(** Modelled from the spec: the table entry, collapsed to no bend when
    both handles face the same direction and are exactly aligned on the
    perpendicular axis. *)
Definition chooseBends (s : XYPosition) (sourceFacing : Position)
    (t : XYPosition) (targetFacing : Position) : Bends :=
  if bool_decide (sourceFacing = targetFacing) && aligned sourceFacing s t then ZeroBend
  else bendTable sourceFacing targetFacing.

(** Modelled from the spec: the coordinate of the lane between the two
    bends of a two-bend path: half way between handles that face each
    other's way, beyond both handles by the offset in the facing direction
    when they face the same way. *)
Definition lane (options : Options) (sourceFacing targetFacing : Position)
    (a b : number) : number :=
  if bool_decide (sourceFacing = targetFacing) then
    match sourceFacing with
    | Right | Bottom => (Qmax a b + offset options)%Q
    | Left | Top => (Qmin a b - offset options)%Q
    end
  else ((a + b) / 2)%Q.

(** Modelled from the spec: the points of the orthogonal path; each
    segment leaves its handle along the axis the handle faces. *)
Definition stepPoints (options : Options) (s : XYPosition) (sourceFacing : Position)
    (t : XYPosition) (targetFacing : Position) : list XYPosition :=
  match chooseBends s sourceFacing t targetFacing with
  | ZeroBend => [s; t]
  | OneBend =>
      if horizontal sourceFacing then [s; mkXY (x t) (y s); t]
      else [s; mkXY (x s) (y t); t]
  | TwoBend =>
      if horizontal sourceFacing then
        let lx := lane options sourceFacing targetFacing (x s) (x t) in
        [s; mkXY lx (y s); mkXY lx (y t); t]
      else
        let ly := lane options sourceFacing targetFacing (y s) (y t) in
        [s; mkXY (x s) ly; mkXY (x t) ly; t]
  end.

(** Modelled from the spec: the length of a segment of an orthogonal
    path, which runs along one axis. *)
Definition segmentLength (a b : XYPosition) : number :=
  (Qabs (x b - x a) + Qabs (y b - y a))%Q.

(** Modelled from the spec: the arc length of an orthogonal path. *)
Fixpoint pathLength (points : list XYPosition) : number :=
  match points with
  | a :: (b :: _) as rest => (segmentLength a b + pathLength rest)%Q
  | _ => 0%Q
  end.

(** Modelled from the spec: the point at arc length [d] from the start of
    the path. *)
Fixpoint pointAt (d : number) (points : list XYPosition) : option XYPosition :=
  match points with
  | [] => None
  | a :: rest =>
      match rest with
      | [] => Some a
      | b :: _ =>
          let len := segmentLength a b in
          if Qle_bool d len then
            if Qeq_bool len 0 then Some a
            else Some (mkXY (x a + (x b - x a) * (d / len))%Q
                            (y a + (y b - y a) * (d / len))%Q)
          else pointAt (d - len)%Q rest
      end
  end.

(** Modelled from the spec: the label anchor of an orthogonal path is its
    midpoint by arc length. *)
Definition arcMidpoint (s t : XYPosition) (points : list XYPosition) : XYPosition :=
  default (midpoint s t) (pointAt (pathLength points / 2)%Q points).

(** Modelled from the spec: [getSmoothStepPath] of
    [components/Edges/SmoothStepEdge], which is not among the sources:
    Smoothstep is the orthogonal path with each bend rounded by the corner
    radius. *)
Definition getSmoothStepPath (options : Options) (s : XYPosition) (sourceFacing : Position)
    (t : XYPosition) (targetFacing : Position) : Route :=
  let points := stepPoints options s sourceFacing t targetFacing in
  mkRoute (Polyline points (borderRadius options)) (arcMidpoint s t points).

(** Modelled from the spec: the path of [components/Edges/StepEdge], which
    is not among the sources: Step is Smoothstep with radius 0. *)
Definition getStepPath (options : Options) (s : XYPosition) (sourceFacing : Position)
    (t : XYPosition) (targetFacing : Position) : Route :=
  getSmoothStepPath (mkOptions (offset options) 0%Q (curvature options))
    s sourceFacing t targetFacing.

End EdgeRouter.

(** ** container/ReactFlow: sequences of renders *)

Module HoverSequences.
Import Js Dom.

Section WithJSON.
Variable JSON_parse : string -> option Json.

(** A sequence of [mouseover] events, each followed by a render with the
    props given with it (the parent may hand new functions at any
    render); the runs of the mounted handler are returned in order. *)
Fixpoint mouseOversWith (inst : ReactFlow.Instance)
    (steps : list (MouseEvent * ReactFlow.HoverProps))
    : ReactFlow.Instance * list Run :=
  match steps with
  | [] => (inst, [])
  | step :: rest =>
      let done := ReactFlow.mouseOver JSON_parse step.2 inst step.1 in
      let tail := mouseOversWith done.1 rest in
      (tail.1, done.2 :: tail.2)
  end.

End WithJSON.

End HoverSequences.

(** ** container/ReactFlow: the rendered [div] *)

Module ContainerElement.
Import Js Dom.

Definition wrapperStyle : gmap string WrapNode.CssValue :=
  {[ "width" := WrapNode.CssText "100%";
     "height" := WrapNode.CssText "100%";
     "overflow" := WrapNode.CssText "hidden";
     "position" := WrapNode.CssText "relative";
     "zIndex" := WrapNode.CssNumber 0%Q ]}.

(** [style={{ ...style, ...wrapperStyle }}]; an omitted [style] spreads
    to nothing. *)
Definition containerStyle (style : option (gmap string WrapNode.CssValue))
    : gmap string WrapNode.CssValue :=
  wrapperStyle ∪ default ∅ style.

(** [className={cc(['react-flow', className])}] *)
Definition containerClassName (className : option string) : list string :=
  WrapNode.ccText (Some "react-flow") ++ WrapNode.ccText className.

(** [const rfId = id || '1'] *)
Definition rfId (id : option string) : string :=
  if truthy id then default "1" id else "1".

(** The attributes the container sets on its [div] itself. *)
Inductive OwnAttr :=
| OwnStyle
| OwnRef
| OwnClassName
| OwnTestId
| OwnId
| OnElDoubleClick
| OnElContextMenu
| OnElMouseMove
| OnElClick
| OnClk
| OnElMouseEnter
| OnElMouseLeave.

(** An attribute of the rendered [div]: a value spread from the remaining
    props, or one the container sets.  The values of props are known by
    identity only. *)
Inductive Attr (V : Type) :=
| Spread (v : V)
| Own (a : OwnAttr).
Arguments Spread {V}.
Arguments Own {V}.

(** The attributes written after [{...rest}] in the older container. *)
Definition ownAttrsLogged : gmap string OwnAttr :=
  {[ "style" := OwnStyle;
     "ref" := OwnRef;
     "className" := OwnClassName;
     "data-testid" := OwnTestId;
     "id" := OwnId;
     "onDoubleClick" := OnElDoubleClick;
     "onContextMenu" := OnElContextMenu;
     "onMouseMove" := OnElMouseMove;
     "onClick" := OnElClick;
     "onMouseOver" := OnElMouseEnter;
     "onMouseOut" := OnElMouseLeave ]}.

(** The attributes written after [{...rest}] in the newer container. *)
Definition ownAttrs : gmap string OwnAttr :=
  {[ "style" := OwnStyle;
     "ref" := OwnRef;
     "className" := OwnClassName;
     "data-testid" := OwnTestId;
     "id" := OwnId;
     "onDoubleClick" := OnElDoubleClick;
     "onContextMenu" := OnElContextMenu;
     "onMouseMove" := OnElMouseMove;
     "onClick" := OnClk;
     "onMouseOver" := OnElMouseEnter ]}.

(** The props the older container names in its parameter list, in the
    order of the source; the others are in [rest]. *)
Definition namedPropsLogged : list string :=
  [ "nodes"; "edges"; "defaultNodes"; "defaultEdges"; "className"; "nodeTypes";
    "edgeTypes"; "onNodeClick"; "onEdgeClick"; "onInit"; "onMove"; "onMoveStart";
    "onMoveEnd"; "onConnect"; "onConnectStart"; "onConnectEnd"; "onClickConnectStart";
    "onClickConnectEnd"; "onNodeMouseEnter"; "onNodeMouseMove"; "onNodeMouseLeave";
    "onNodeContextMenu"; "onNodeDoubleClick"; "onNodeDragStart"; "onNodeDrag";
    "onNodeDragStop"; "onNodesDelete"; "onEdgesDelete"; "onSelectionChange";
    "onSelectionDragStart"; "onSelectionDrag"; "onSelectionDragStop";
    "onSelectionContextMenu"; "onSelectionStart"; "onSelectionEnd"; "connectionMode";
    "connectionLineType"; "connectionLineStyle"; "connectionLineComponent";
    "connectionLineContainerStyle"; "deleteKeyCode"; "selectionKeyCode";
    "selectionOnDrag"; "selectionMode"; "panActivationKeyCode"; "multiSelectionKeyCode";
    "zoomActivationKeyCode"; "snapToGrid"; "snapGrid"; "onlyRenderVisibleElements";
    "selectNodesOnDrag"; "nodesDraggable"; "nodesConnectable"; "nodesFocusable";
    "nodeOrigin"; "edgesFocusable"; "edgesUpdatable"; "elementsSelectable";
    "defaultViewport"; "minZoom"; "maxZoom"; "translateExtent"; "preventScrolling";
    "nodeExtent"; "defaultMarkerColor"; "zoomOnScroll"; "zoomOnPinch"; "panOnScroll";
    "panOnScrollSpeed"; "panOnScrollMode"; "zoomOnDoubleClick"; "panOnDrag";
    "onPaneClick"; "onPaneMouseEnter"; "onPaneMouseMove"; "onPaneMouseLeave";
    "onPaneScroll"; "onPaneContextMenu"; "children"; "onEdgeUpdate";
    "onEdgeContextMenu"; "onEdgeDoubleClick"; "onEdgeMouseEnter"; "onEdgeMouseMove";
    "onEdgeMouseLeave"; "onEdgeUpdateStart"; "onEdgeUpdateEnd"; "edgeUpdaterRadius";
    "onNodesChange"; "onEdgesChange"; "noDragClassName"; "noWheelClassName";
    "noPanClassName"; "fitView"; "fitViewOptions"; "connectOnClick";
    "attributionPosition"; "proOptions"; "defaultEdgeOptions"; "elevateNodesOnSelect";
    "elevateEdgesOnSelect"; "disableKeyboardA11y"; "autoPanOnConnect";
    "autoPanOnNodeDrag"; "connectionRadius"; "isValidConnection"; "onError"; "style";
    "id"; "nodeDragThreshold" ].

(** The props the newer container names in its parameter list. *)
Definition namedProps : list string :=
  [ "nodes"; "edges"; "defaultNodes"; "defaultEdges"; "className"; "nodeTypes";
    "edgeTypes"; "onNodeClick"; "onEdgeClick"; "onInit"; "onMove"; "onMoveStart";
    "onMoveEnd"; "onConnect"; "onConnectStart"; "onConnectEnd"; "onClickConnectStart";
    "onClickConnectEnd"; "onNodeMouseEnter"; "onNodeMouseMove"; "onNodeMouseLeave";
    "onNodeContextMenu"; "onNodeDoubleClick"; "onNodeDragStart"; "onNodeDrag";
    "onNodeDragStop"; "onNodesDelete"; "onEdgesDelete"; "onSelectionChange";
    "onSelectionDragStart"; "onSelectionDrag"; "onSelectionDragStop";
    "onSelectionContextMenu"; "onSelectionStart"; "onSelectionEnd"; "connectionMode";
    "connectionLineType"; "connectionLineStyle"; "connectionLineComponent";
    "connectionLineContainerStyle"; "deleteKeyCode"; "selectionKeyCode";
    "selectionOnDrag"; "selectionMode"; "panActivationKeyCode"; "multiSelectionKeyCode";
    "zoomActivationKeyCode"; "snapToGrid"; "snapGrid"; "onlyRenderVisibleElements";
    "selectNodesOnDrag"; "nodesDraggable"; "nodesConnectable"; "nodesFocusable";
    "nodeOrigin"; "edgesFocusable"; "edgesUpdatable"; "elementsSelectable";
    "defaultViewport"; "minZoom"; "maxZoom"; "translateExtent"; "preventScrolling";
    "nodeExtent"; "defaultMarkerColor"; "zoomOnScroll"; "zoomOnPinch"; "panOnScroll";
    "panOnScrollSpeed"; "panOnScrollMode"; "zoomOnDoubleClick"; "panOnDrag";
    "onPaneClick"; "onPaneMouseEnter"; "onPaneMouseMove"; "onPaneMouseLeave";
    "onPaneScroll"; "onPaneContextMenu"; "children"; "onEdgeUpdate";
    "onEdgeContextMenu"; "onEdgeDoubleClick"; "onEdgeMouseEnter"; "onEdgeMouseMove";
    "onEdgeMouseLeave"; "onEdgeUpdateStart"; "onEdgeUpdateEnd"; "edgeUpdaterRadius";
    "onNodesChange"; "onEdgesChange"; "noDragClassName"; "noWheelClassName";
    "noPanClassName"; "fitView"; "fitViewOptions"; "connectOnClick"; "proOptions";
    "defaultEdgeOptions"; "elevateNodesOnSelect"; "elevateEdgesOnSelect";
    "disableKeyboardA11y"; "autoPanOnConnect"; "autoPanOnNodeDrag"; "connectionRadius";
    "isValidConnection"; "onError"; "style"; "id"; "nodeDragThreshold"; "onClick" ].

Section Props.
Context {V : Type}.

(** [{ ..., ...rest }] of a parameter list that names [named]: the props
    given under a name the list does not have. *)
Definition restOf (named : list string) (props : gmap string V) : gmap string V :=
  filter (fun entry => entry.1 ∉ named) props.

(** The [div] of the older container, rendered with [props]: [rest] is
    spread first, and an attribute written after the spread replaces one
    that was spread. *)
Definition divAttrsLogged (props : gmap string V) : gmap string (Attr V) :=
  (Own <$> ownAttrsLogged) ∪ (Spread <$> restOf namedPropsLogged props).

(** The [div] of the newer container, rendered with [props]. *)
Definition divAttrs (props : gmap string V) : gmap string (Attr V) :=
  (Own <$> ownAttrs) ∪ (Spread <$> restOf namedProps props).

End Props.

End ContainerElement.

(** ** components/Nodes/wrapNode: the resize observer effect *)

Module WrapNodeObserver.
Import Js Types WrapNode.

(** The effect that registers the mounted [div] ([currNode], present when
    [nodeRef.current] is) with the resize observer.  The observer, which
    may be [null], is known by the set of elements it observes; the
    second component tells whether a clean-up was returned. *)
Definition observeEffect {D : Type} (props : WrapNodeProps D) (refs : Refs)
    (currNode : nat) (resizeObserver : option (gset nat)) : option (gset nat) * bool :=
  if nodeRef refs && negb (hidden props) then
    ((fun observed => {[currNode]} ∪ observed) <$> resizeObserver, true)
  else (resizeObserver, false).

(** The clean-up of the effect: [resizeObserver?.unobserve(currNode)]. *)
Definition observeCleanup (registered : bool) (currNode : nat)
    (resizeObserver : option (gset nat)) : option (gset nat) :=
  if registered then (fun observed => observed ∖ {[currNode]}) <$> resizeObserver
  else resizeObserver.

End WrapNodeObserver.

(** ** Sample inputs *)

Module Samples.
Import Js Dom.

(** The double-quote character. *)
Definition quote : string := String (ascii_of_nat 34) EmptyString.

(** The JSON text of a record whose only field is a string [id]. *)
Definition idRecordText (i : string) : string :=
  "{" +:+ quote +:+ "id" +:+ quote +:+ ":" +:+ quote +:+ i +:+ quote +:+ "}".

Definition plainChar (c : ascii) : bool :=
  let n := nat_of_ascii c in
  (32 <=? n)%nat && (n <? 127)%nat && negb (n =? 34)%nat && negb (n =? 92)%nat.

Fixpoint plainChars (s : string) : bool :=
  match s with
  | EmptyString => true
  | String c rest => plainChar c && plainChars rest
  end.

(** [JSON.parse] restricted to the texts of [idRecordText] with plain
    characters in the string, on which it returns the record; every other
    text is refused. *)
Definition parseIdRecord (s : string) : option Json :=
  let pre := "{" +:+ quote +:+ "id" +:+ quote +:+ ":" +:+ quote in
  let suf := quote +:+ "}" in
  let n := String.length s in
  if String.prefix pre s && (String.length pre + String.length suf <=? n)%nat then
    let body := String.substring (String.length pre)
                  (n - String.length pre - String.length suf) s in
    let tail := String.substring (n - String.length suf) (String.length suf) s in
    if String.eqb tail suf && plainChars body
    then Some (JObj [("id", JStr body)])
    else None
  else None.

(** An element of a diagram: a node or an edge wrapper with its
    serialized record. *)
Definition nodeElement (k : nat) (i : string) : HTMLElement :=
  mkElement k {[ "eltype" := "node"; "nodedata" := idRecordText i; "id" := i ]}.

Definition edgeElement (k : nat) (i : string) : HTMLElement :=
  mkElement k {[ "eltype" := "edge"; "edgedata" := idRecordText i ]}.

(** An element without data attributes. *)
Definition plainElement (k : nat) : HTMLElement := mkElement k ∅.

Definition idRecord (i : string) : Json := JObj [("id", JStr i)].

(** A diagram nested in the node [outer] of another diagram: the pane of
    the inner diagram is clicked and the handler of the inner container
    (element 2) receives the event. *)
Definition nestedPaneClick : MouseEvent :=
  mkEvent (plainElement 3)
          [plainElement 2; nodeElement 1 "outer"; plainElement 0]
          (plainElement 2).

(** The pointer comes over the node [a], then over the node [b], of a
    container (element 0) whose pane is element 1. *)
Definition overA : MouseEvent :=
  mkEvent (nodeElement 2 "a") [plainElement 1; plainElement 0] (plainElement 0).

Definition overB : MouseEvent :=
  mkEvent (nodeElement 3 "b") [plainElement 1; plainElement 0] (plainElement 0).

(** The four hover callbacks, each the same function at every render. *)
Definition stableHoverProps : ReactFlow.HoverProps :=
  ReactFlow.mkHoverProps (Some 1%nat) (Some 2%nat) (Some 3%nat) (Some 4%nat).

(** The selection keys of a node: Enter, Space and Escape. *)
Definition selectionKeys : list string := ["Enter"; " "; "Escape"].

(** A focusable node [n1] that is selected, selectable and draggable. *)
Definition selectedNodeProps : WrapNode.WrapNodeProps nat :=
  WrapNode.mkWrapNodeProps nat "n1" "default" 7%nat 10%Q 10%Q 10%Q 10%Q true ∅ None
    true true true true true (Some Types.Bottom) (Some Types.Top) false None 0%Q false
    "nodrag" "nopan" true false None "1".

Definition arrowUp : WrapNode.KeyboardEvent := WrapNode.mkKey "ArrowUp" false false.

(** Three nodes: [n1] and [n2] are selected and draggable, [n2] is kept in
    the box (0,0)-(100,100), [n3] is not selected. *)
Definition threeNodes : GraphStore.Store :=
  GraphStore.mkStore
    {[ "n1" := GraphStore.mkSNode (Types.mkXY 10%Q 10%Q) (0%Q, 0%Q) None
                 GraphStore.ExtentNone true true;
       "n2" := GraphStore.mkSNode (Types.mkXY 5%Q 0%Q) (0%Q, 0%Q) None
                 (GraphStore.ExtentBox (GraphStore.mkBox 0%Q 0%Q 100%Q 100%Q)) true true;
       "n3" := GraphStore.mkSNode (Types.mkXY 1%Q 1%Q) (0%Q, 0%Q) None
                 GraphStore.ExtentNone true false ]}
    ∅.

(** A parent of 100 by 100 at the origin with a child at (50,50) that has
    no measurement yet. *)
Definition parentAndChild : GraphStore.Store :=
  GraphStore.mkStore
    {[ "parent" := GraphStore.mkSNode (Types.mkXY 0%Q 0%Q) (0%Q, 0%Q) None
                     GraphStore.ExtentNone true false;
       "child" := GraphStore.mkSNode (Types.mkXY 50%Q 50%Q) (0%Q, 0%Q) (Some "parent")
                    GraphStore.ExtentParent true false ]}
    {[ "parent" := GraphStore.mkSize 100%Q 100%Q ]}.

(** The child is measured as 200 by 200, which exceeds the parent. *)
Definition childMeasured : GraphStore.Measurement :=
  GraphStore.mkMeasurement "child" (GraphStore.mkSize 200%Q 200%Q) true.

Definition wrapperRefs : WrapNode.Refs :=
  WrapNode.mkRefs true "input" (Some Types.Bottom) (Some Types.Top).

Definition infiniteExtent : Types.CoordinateExtent :=
  ((Types.NegInfinity, Types.NegInfinity), (Types.PosInfinity, Types.PosInfinity)).

(** The props of a container whose only option is a default viewport
    zoomed to 5. *)
Definition zoomedInProps : Container.ReactFlowProps :=
  Container.mkReactFlowProps None None None None None
    (Some (Types.mkViewport 0%Q 0%Q 5%Q)) None None None None None.

Definition routerOptions : EdgeRouter.Options := EdgeRouter.mkOptions 20%Q 5%Q 0.25%Q.

End Samples.

(** ** Vocabulary of the statements *)

Module Statements.
Import Js Dom.

Definition notLog (e : Effect) : bool := negb (isLog e).

(** An element annotated with an element type. *)
Definition annotated (e : HTMLElement) : bool := truthy (dataset e !! "eltype").

(** The nearest annotated element of a chain that starts at the event
    target and continues with its ancestors. *)
Definition nearestAnnotated (chain : list HTMLElement) : option HTMLElement :=
  List.find annotated chain.

(** The ancestors that come before the listening element. *)
Fixpoint below (listeningEl : HTMLElement) (ancestors : list HTMLElement)
    : list HTMLElement :=
  match ancestors with
  | [] => []
  | a :: rest => if sameElement a listeningEl then [] else a :: below listeningEl rest
  end.

(** The event target with all its ancestors. *)
Definition wholeChain (event : MouseEvent) : list HTMLElement :=
  target event :: targetAncestors event.

(** The event target with its ancestors up to the listening element,
    which is left out. *)
Definition searchScope (event : MouseEvent) : list HTMLElement :=
  target event :: below (currentTarget event) (targetAncestors event).

(** The element is of the given type and carries, in the given attribute,
    a serialized record: a non-empty text that [JSON.parse] turns into
    [r]. *)
Definition carries (JSON_parse : string -> option Json) (el : HTMLElement)
    (kind attr : string) (r : Json) : Prop :=
  dataset el !! "eltype" = Some kind
  /\ exists s, dataset el !! attr = Some s /\ s <> EmptyString /\ JSON_parse s = Some r.

(** The dispatch rule of the decorated handler, for a given reading of
    which elements are searched for the nearest annotated one: the handler
    invokes at most one callback and does nothing else; a callback is
    invoked exactly when it is the supplied node callback and the nearest
    annotated element is a node carrying its record, or the supplied edge
    callback and that element is an edge carrying its record; without
    callbacks the handler has no effect. *)
Definition dispatchRule (JSON_parse : string -> option Json)
    (scope : MouseEvent -> list HTMLElement)
    (nodeCallback edgeCallback : option Handler) (event : MouseEvent) : Prop :=
  let run := ReactFlow.eventHandlersDecorator JSON_parse nodeCallback edgeCallback event in
  (run.1 = [] \/ exists h r, run.1 = [Invoke h event r])
  /\ (forall h r,
        In (Invoke h event r) run.1 <->
        exists el, nearestAnnotated (scope event) = Some el
                   /\ ((nodeCallback = Some h /\ carries JSON_parse el "node" "nodedata" r)
                       \/ (edgeCallback = Some h /\ carries JSON_parse el "edge" "edgedata" r)))
  /\ (nodeCallback = None -> edgeCallback = None -> run = ([], Normal)).

(** The props with another payload. *)
Definition withData {D D' : Type} (p : WrapNode.WrapNodeProps D) (d : D')
    : WrapNode.WrapNodeProps D' :=
  WrapNode.mkWrapNodeProps D' (WrapNode.id p) (WrapNode.type p) d (WrapNode.xPos p)
    (WrapNode.yPos p) (WrapNode.xPosOrigin p) (WrapNode.yPosOrigin p)
    (WrapNode.selected p) (WrapNode.style p) (WrapNode.className p)
    (WrapNode.isDraggable p) (WrapNode.isSelectable p) (WrapNode.isConnectable p)
    (WrapNode.isFocusable p) (WrapNode.selectNodesOnDrag p) (WrapNode.sourcePosition p)
    (WrapNode.targetPosition p) (WrapNode.hidden p) (WrapNode.dragHandle p)
    (WrapNode.zIndex p) (WrapNode.isParent p) (WrapNode.noDragClassName p)
    (WrapNode.noPanClassName p) (WrapNode.initialized p) (WrapNode.disableKeyboardA11y p)
    (WrapNode.ariaLabel p) (WrapNode.rfId p).

(** The rendered element without the two places the payload is forwarded
    to: the [data] prop of the custom node component and the serialized
    node attribute. *)
Definition forgetData {D : Type} (e : WrapNode.NodeElement D) : WrapNode.NodeElement unit :=
  match e with
  | WrapNode.mkNodeElement cls sty did tid okd tab role desc label _ eltype child =>
      WrapNode.mkNodeElement cls sty did tid okd tab role desc label None eltype
        match child with
        | WrapNode.mkNodeProps i _ t xp yp sel conn sp tp drag dh z =>
            WrapNode.mkNodeProps i tt t xp yp sel conn sp tp drag dh z
        end
  end.

(** The unit delta of each arrow key, as the spec lists them. *)
Definition unitDelta (k : string) : option Types.XYPosition :=
  if String.eqb k "ArrowUp" then Some (Types.mkXY 0%Q (-1)%Q)
  else if String.eqb k "ArrowDown" then Some (Types.mkXY 0%Q 1%Q)
  else if String.eqb k "ArrowLeft" then Some (Types.mkXY (-1)%Q 0%Q)
  else if String.eqb k "ArrowRight" then Some (Types.mkXY 1%Q 0%Q)
  else None.

(** The position updates a key handler asked for: delta and shift flag. *)
Definition positionUpdates (calls : list WrapNode.StoreCall)
    : list (Types.XYPosition * bool) :=
  omap (fun c => match c with
                 | WrapNode.UpdatePositions dx dy shift => Some (Types.mkXY dx dy, shift)
                 | _ => None
                 end) calls.

(** Modelled from the spec: the position-update operation behind
    [useUpdateNodePositions], which is not among the sources: the delta
    goes to [updateNodePositions] of the store, the node of the key press
    being the dragged one, outside a drag gesture. *)
Definition runPositionUpdates (focused : string) (st : GraphStore.Store)
    (calls : list WrapNode.StoreCall) : GraphStore.Store :=
  fold_left (fun st c =>
               match c with
               | WrapNode.UpdatePositions dx dy _ =>
                   (GraphStore.updateNodePositions st (Types.mkXY dx dy) focused false).1
               | _ => st
               end) calls st.

(** The box [outer] contains the box [inner]. *)
Definition contains (outer inner : GraphStore.Box) : Prop :=
  (GraphStore.bx1 outer <= GraphStore.bx1 inner
   /\ GraphStore.by1 outer <= GraphStore.by1 inner
   /\ GraphStore.bx2 inner <= GraphStore.bx2 outer
   /\ GraphStore.by2 inner <= GraphStore.by2 outer)%Q.

(** A callback of the delegation was called. *)
Definition isDispatch (e : Dom.Effect) : bool :=
  match e with Dom.Invoke _ _ _ => true | _ => false end.

(** The two handles are exactly aligned on the axis perpendicular to the
    facing direction: same [y] for a handle facing left or right, same [x]
    for one facing up or down. *)
Definition perpendicularAligned (f : Types.Position) (s t : Types.XYPosition) : Prop :=
  match f with
  | Types.Left | Types.Right => (Types.y s == Types.y t)%Q
  | Types.Top | Types.Bottom => (Types.x s == Types.x t)%Q
  end.

End Statements.

(** ** Vocabulary of the hover statements *)

Module HoverStatements.
Import Js Dom Statements.

(** Nothing is recorded as hovered. *)
Definition nothingHovered : Hovered := mkHovered None JNull.

(** The value of [currentHovered] is one the handler can have set. *)
Definition wellFormedHovered (h : Hovered) : Prop :=
  h = nothingHovered
  \/ exists r, h = mkHovered (Some "node") r \/ h = mkHovered (Some "edge") r.

(** The run of a hover handler on [event] has one of four shapes: nothing
    happens; an exception and nothing else; one leave call followed by
    the reset of the state; or, after at most one leave call, the state
    update to a node or edge record followed by the enter call on that
    very record. *)
Definition hoverRunShape (event : MouseEvent) (run : Run) : Prop :=
  run = ([], Normal) \/ run = ([], Throw)
  \/ (exists f old, run = ([Invoke f event old; SetCurrentHovered nothingHovered], Normal))
  \/ (exists pre k r f,
        run = (pre ++ [SetCurrentHovered (mkHovered (Some k) r); Invoke f event r], Normal)
        /\ (k = "node" \/ k = "edge")
        /\ (pre = [] \/ exists g old, pre = [Invoke g event old])).

(** The two kinds of elements of a diagram. *)
Inductive Kind := KNode | KEdge.

Definition kindName (k : Kind) : string :=
  match k with KNode => "node" | KEdge => "edge" end.

Definition dataAttr (k : Kind) : string :=
  match k with KNode => "nodedata" | KEdge => "edgedata" end.

Definition sameKind (k k' : Kind) : bool :=
  match k, k' with KNode, KNode | KEdge, KEdge => true | _, _ => false end.

(** The parsed value is an object, as the record of a node or an edge
    is. *)
Definition isRecord (r : Json) : Prop := exists fields, r = JObj fields.

(** The state that records an element of kind [k] with record [r], or
    nothing. *)
Definition recordedAs (prev : option (Kind * Json)) : Hovered :=
  match prev with
  | None => nothingHovered
  | Some (k, r) => mkHovered (Some (kindName k)) r
  end.

(** What the pointer is over at [event]: no annotated element below the
    listening element, or an element of kind [k] carrying the record
    [r]. *)
Definition pointerOver (JSON_parse : string -> option Json) (event : MouseEvent)
    (now : option (Kind * Json)) : Prop :=
  match now with
  | None => nearestAnnotated (searchScope event) = None
  | Some (k, r) =>
      exists el, nearestAnnotated (searchScope event) = Some el
                 /\ carries JSON_parse el (kindName k) (dataAttr k) r
  end.

(** The element under the pointer is the recorded one: same kind, same
    [id]. *)
Definition sameHovered (k k' : Kind) (r old : Json) : bool :=
  sameKind k k' && strictEq (getIdOpt r) (getIdOpt old).

(** What the pointer is over at a [mouseover]: no annotated element
    below the listening element; an annotated element without a record
    (it is neither a node nor an edge, or its data attribute is missing
    or empty); a node or an edge whose data attribute [JSON.parse]
    refuses; or an element of kind [k] carrying the record [r]. *)
Inductive Under :=
| OverNothing
| OverUnrecorded
| OverUnparsable
| Over (k : Kind) (r : Json).

Definition pointerUnder (JSON_parse : string -> option Json) (event : MouseEvent)
    (now : Under) : Prop :=
  match now with
  | OverNothing => pointerOver JSON_parse event None
  | OverUnrecorded =>
      exists el, nearestAnnotated (searchScope event) = Some el
                 /\ forall k, dataset el !! "eltype" = Some (kindName k) ->
                              truthy (dataset el !! dataAttr k) = false
  | OverUnparsable =>
      exists el k s, nearestAnnotated (searchScope event) = Some el
                     /\ dataset el !! "eltype" = Some (kindName k)
                     /\ dataset el !! dataAttr k = Some s
                     /\ s <> EmptyString /\ JSON_parse s = None
  | Over k r => pointerOver JSON_parse event (Some (k, r))
  end.

(** The hover step as it is meant, and where the code departs from it.
    Over no element the recorded element is left and the state reset.
    Over an element with a record, the recorded element is left when it is
    of the other kind or has another id, and the new element is recorded
    and entered (again, when it is the recorded one); but a recorded value
    that is falsy is never left, and comparing ids with a new record that
    is [null] throws before anything is done.  Over an annotated element
    without a record nothing happens, and an unparsable record throws. *)
Definition intendedHover (ne ee nl el : Handler) (event : MouseEvent)
    (prev : option (Kind * Json)) (now : Under) : Run :=
  let enter k := match k with KNode => ne | KEdge => ee end in
  let leave k := match k with KNode => nl | KEdge => el end in
  match now with
  | OverNothing =>
      match prev with
      | None => ([], Normal)
      | Some (k, old) =>
          ([Invoke (leave k) event old; SetCurrentHovered nothingHovered], Normal)
      end
  | OverUnrecorded => ([], Normal)
  | OverUnparsable => ([], Throw)
  | Over k' r =>
      let entered :=
        [SetCurrentHovered (mkHovered (Some (kindName k')) r); Invoke (enter k') event r] in
      match prev with
      | None => (entered, Normal)
      | Some (k, old) =>
          if negb (truthyJson old) then (entered, Normal)
          else if negb (sameKind k k') then (Invoke (leave k) event old :: entered, Normal)
          else
            match r with
            | JNull => ([], Throw)
            | _ =>
                if strictEq (getIdOpt r) (getIdOpt old) then (entered, Normal)
                else (Invoke (leave k) event old :: entered, Normal)
            end
      end
  end.

Section WithJSON.
Variable JSON_parse : string -> option Json.

(** The sequence of [mouseover] events handled each against the current
    value of [currentHovered] and with the callbacks of the latest render
    ([props] at first, then the props given with each event). *)
Fixpoint currentOvers (hovered : Hovered) (props : ReactFlow.HoverProps)
    (steps : list (MouseEvent * ReactFlow.HoverProps)) : Hovered * list Run :=
  match steps with
  | [] => (hovered, [])
  | step :: rest =>
      let run := ReactFlow.runClosure JSON_parse (ReactFlow.mkClosure hovered props) step.1 in
      let tail := currentOvers (ReactFlow.applySetState hovered run.1) step.2 rest in
      (tail.1, run :: tail.2)
  end.

End WithJSON.

(** The two enter callbacks of [q] are not both the functions of [p]. *)
Definition enterChanged (p q : ReactFlow.HoverProps) : Prop :=
  ReactFlow.sameDeps
    [ReactFlow.onNodeMouseEnter p; ReactFlow.onEdgeMouseEnter p]
    [ReactFlow.onNodeMouseEnter q; ReactFlow.onEdgeMouseEnter q] = false.

(** The enter callbacks change at every render of the sequence. *)
Fixpoint enterChangedAtEveryRender (p : ReactFlow.HoverProps)
    (steps : list (MouseEvent * ReactFlow.HoverProps)) : Prop :=
  match steps with
  | [] => True
  | step :: rest => enterChanged p step.2 /\ enterChangedAtEveryRender step.2 rest
  end.

(** The two enter callbacks of [q] are the functions of [p]. *)
Definition enterKept (p q : ReactFlow.HoverProps) : Prop :=
  ReactFlow.onNodeMouseEnter q = ReactFlow.onNodeMouseEnter p
  /\ ReactFlow.onEdgeMouseEnter q = ReactFlow.onEdgeMouseEnter p.

Definition noEnter (p : ReactFlow.HoverProps) : Prop :=
  ReactFlow.onNodeMouseEnter p = None /\ ReactFlow.onEdgeMouseEnter p = None.

(** The instance holds the handler made at a render with [p] from the
    state [hovered]. *)
Definition holds (inst : ReactFlow.Instance) (hovered : Hovered)
    (p : ReactFlow.HoverProps) : Prop :=
  ReactFlow.onElMouseEnter inst
  = ReactFlow.mkMemo [ReactFlow.onNodeMouseEnter p; ReactFlow.onEdgeMouseEnter p]
      (ReactFlow.mkClosure hovered p).

End HoverStatements.

(** ** Vocabulary of the node wrapper statements *)

Module WrapStatements.
Import Js Types WrapNode.

(** A rational truncated towards zero. *)
Definition truncate (v : number) : Z := Z.quot (Qnum v) (Zpos (Qden v)).

(** The type or a handle position of the props differs from what the refs
    remember. *)
Definition remeasureNeeded {D : Type} (props : WrapNodeProps D) (refs : Refs) : Prop :=
  prevType refs <> type props
  \/ prevSourcePosition refs <> sourcePosition props
  \/ prevTargetPosition refs <> targetPosition props.

(** The direction an arrow key stands for. *)
Definition arrowDirection (k : string) : option string :=
  if String.eqb k "ArrowUp" then Some "up"
  else if String.eqb k "ArrowDown" then Some "down"
  else if String.eqb k "ArrowLeft" then Some "left"
  else if String.eqb k "ArrowRight" then Some "right"
  else None.

(** The announcement of a move in [direction] at the integer coordinates
    [px], [py]. *)
Definition announcement (direction : string) (px py : Z) : string :=
  "Moved selected node " +:+ direction +:+ ". New position, x: " +:+ pretty px
  +:+ ", y: " +:+ pretty py.

(** The message was set as the live message. *)
Definition announced (message : string) (calls : list StoreCall) : Prop :=
  In (SetAriaLiveMessage message) calls.

End WrapStatements.

(** ** Vocabulary of the container element statements *)

Module ContainerStatements.
Import Js Dom.

(** The style properties the container fixes. *)
Definition fixedStyleKeys : list string :=
  ["width"; "height"; "overflow"; "position"; "zIndex"].

(** The attributes both containers write after the spread props. *)
Definition ownAttrNames : list string :=
  ["style"; "ref"; "className"; "data-testid"; "id"; "onDoubleClick"; "onContextMenu";
   "onMouseMove"; "onClick"; "onMouseOver"].

End ContainerStatements.

(** ** Sample inputs of the hover sequences *)

Module HoverSamples.
Import Js Dom Samples.

(** The four hover callbacks, the node enter callback being [n]. *)
Definition hoverPropsWithEnter (n : Handler) : ReactFlow.HoverProps :=
  ReactFlow.mkHoverProps (Some n) (Some 2%nat) (Some 3%nat) (Some 4%nat).

(** The two leave callbacks without an enter callback. *)
Definition leaveOnlyProps : ReactFlow.HoverProps :=
  ReactFlow.mkHoverProps None None (Some 3%nat) (Some 4%nat).

End HoverSamples.

(** ** Sample inputs of the key handler *)

Module KeySamples.
Import Js Samples.

(** The node of [selectedNodeProps] at the position (-7/2, 11/4). *)
Definition offGridNodeProps : WrapNode.WrapNodeProps nat :=
  WrapNode.mkWrapNodeProps nat "n1" "default" 7%nat (-7 # 2)%Q (11 # 4)%Q 10%Q 10%Q true ∅
    None true true true true true (Some Types.Bottom) (Some Types.Top) false None 0%Q false
    "nodrag" "nopan" true false None "1".

End KeySamples.

(** * Properties *)

(** ** Event delegation: the rewrite of the container *)

Module DispatchFacts.
Import Js Dom Statements.

Lemma logged_findNodeOrEdge_result node ancestors listeningEl :
  (ReactFlowLogged.findNodeOrEdge node ancestors listeningEl).2
  = ReactFlow.findNodeOrEdge node ancestors listeningEl.
Proof.
  revert node.
  induction ancestors as [|parentElement rest IH]; intros node; simpl.
  - destruct (truthy _); reflexivity.
  - destruct (truthy _); [reflexivity|].
    destruct (sameElement parentElement listeningEl); [reflexivity|].
    simpl. apply IH.
Qed.

Lemma logged_findNodeOrEdge_only_logs node ancestors listeningEl :
  List.filter notLog (ReactFlowLogged.findNodeOrEdge node ancestors listeningEl).1 = [].
Proof.
  revert node.
  induction ancestors as [|parentElement rest IH]; intros node; simpl.
  - destruct (truthy _); reflexivity.
  - destruct (truthy _); [reflexivity|].
    destruct (sameElement parentElement listeningEl); [reflexivity|].
    simpl. apply IH.
Qed.

Lemma decorated_handlers_agree JSON_parse nodeCallback edgeCallback event :
  let old := ReactFlowLogged.eventHandlersDecorator JSON_parse
               nodeCallback edgeCallback event in
  let new := ReactFlow.eventHandlersDecorator JSON_parse
               nodeCallback edgeCallback event in
  List.filter notLog old.1 = new.1 /\ old.2 = new.2.
Proof.
  unfold ReactFlowLogged.eventHandlersDecorator, ReactFlow.eventHandlersDecorator.
  destruct (negb (supplied nodeCallback) && negb (supplied edgeCallback));
    [split; reflexivity|].
  rewrite logged_findNodeOrEdge_result.
  pose proof (logged_findNodeOrEdge_only_logs (target event) (targetAncestors event)
                (currentTarget event)) as Hlogs.
  set (logs := (ReactFlowLogged.findNodeOrEdge (target event) (targetAncestors event)
                  (currentTarget event)).1) in *.
  unfold ReactFlowLogged.parseAttr, ReactFlow.parseAttr.
  cbn [andThen fst snd].
  rewrite !List.filter_app, Hlogs. cbn [List.filter notLog isLog negb app].
  destruct (ReactFlow.findNodeOrEdge _ _ _) as [data|]; [|split; reflexivity].
  destruct (looseEq (dataset data !! "eltype") "node" && supplied nodeCallback).
  - destruct (truthy (dataset data !! "nodedata")); [|split; reflexivity].
    destruct (dataset data !! "nodedata") as [s|]; [|split; reflexivity].
    destruct (JSON_parse s) as [node|]; [|split; reflexivity].
    destruct nodeCallback; split; reflexivity.
  - destruct (looseEq (dataset data !! "eltype") "edge" && supplied edgeCallback);
      [|split; reflexivity].
    destruct (truthy (dataset data !! "edgedata")); [|split; reflexivity].
    destruct (dataset data !! "edgedata") as [s|]; [|split; reflexivity].
    destruct (JSON_parse s) as [edge|]; [|split; reflexivity].
    destruct edgeCallback; split; reflexivity.
Qed.

Lemma filter_dispatch_notLog effects :
  List.filter isDispatch (List.filter notLog effects) = List.filter isDispatch effects.
Proof.
  induction effects as [|e effects IH]; simpl; [reflexivity|].
  destruct e; simpl; rewrite IH; reflexivity.
Qed.

(** C1. The console output apart, the older and the newer container
    dispatch alike: both versions of [findNodeOrEdge] return the same
    element or null on the same element and ancestor chain; both versions
    of the decorated handler invoke the same callbacks with the same
    parsed records, in the same order, and complete alike; and the
    handlers the two containers mount for click, double click, context
    menu and mouse move make the same calls of node and edge callbacks. *)
Theorem rewrite_preserves_dispatch (JSON_parse : string -> option Json) :
  (forall node ancestors listeningEl,
      (ReactFlowLogged.findNodeOrEdge node ancestors listeningEl).2
      = ReactFlow.findNodeOrEdge node ancestors listeningEl)
  /\ (forall nodeCallback edgeCallback event,
        let old := ReactFlowLogged.eventHandlersDecorator JSON_parse
                     nodeCallback edgeCallback event in
        let new := ReactFlow.eventHandlersDecorator JSON_parse
                     nodeCallback edgeCallback event in
        List.filter notLog old.1 = new.1 /\ old.2 = new.2)
  /\ (forall props gesture event,
        let old := ReactFlowLogged.handlerOf JSON_parse props gesture event in
        let new := ReactFlow.handlerOf JSON_parse props gesture event in
        List.filter isDispatch old.1 = List.filter isDispatch new.1 /\ old.2 = new.2).
Proof.
  split; [apply logged_findNodeOrEdge_result|].
  split; [apply decorated_handlers_agree|].
  intros props gesture event.
  assert (forall ncb ecb,
            List.filter isDispatch
              (ReactFlowLogged.eventHandlersDecorator JSON_parse ncb ecb event).1
            = List.filter isDispatch
                (ReactFlow.eventHandlersDecorator JSON_parse ncb ecb event).1
            /\ (ReactFlowLogged.eventHandlersDecorator JSON_parse ncb ecb event).2
               = (ReactFlow.eventHandlersDecorator JSON_parse ncb ecb event).2) as Hagree.
  { intros ncb ecb.
    destruct (decorated_handlers_agree JSON_parse ncb ecb event) as [Heff Hcompl].
    cbv zeta in Heff, Hcompl. rewrite <- Heff, filter_dispatch_notLog.
    split; [reflexivity|exact Hcompl]. }
  destruct gesture; cbn [ReactFlowLogged.handlerOf ReactFlow.handlerOf];
    unfold ReactFlowLogged.onElClick, ReactFlowLogged.onElDoubleClick,
      ReactFlowLogged.onElContextMenu, ReactFlowLogged.onElMouseMove,
      ReactFlow.onClk, ReactFlow.onElClick, ReactFlow.onElDoubleClick,
      ReactFlow.onElContextMenu, ReactFlow.onElMouseMove;
    try apply Hagree.
  destruct (Hagree (onNodeClick props) (onEdgeClick props)) as [Heff Hcompl].
  destruct (onClick props); cbn [andThen emit ret fst snd app List.filter isDispatch];
    split; assumption.
Qed.

Lemma truthy_Some s : truthy (Some s) = true <-> s <> EmptyString.
Proof.
  unfold truthy. destruct (String.eqb_spec s EmptyString); simpl; split; congruence.
Qed.

Lemma looseEq_true v lit : looseEq v lit = true <-> v = Some lit.
Proof.
  destruct v as [s|]; simpl; [|split; congruence].
  rewrite String.eqb_eq. split; congruence.
Qed.

Lemma findNodeOrEdge_nearest node ancestors listeningEl :
  ReactFlow.findNodeOrEdge node ancestors listeningEl
  = nearestAnnotated (node :: below listeningEl ancestors).
Proof.
  revert node.
  induction ancestors as [|parentElement rest IH]; intros node; simpl;
    unfold nearestAnnotated, annotated in *; simpl.
  - destruct (truthy _); reflexivity.
  - destruct (truthy _); [reflexivity|].
    destruct (sameElement parentElement listeningEl); [reflexivity|].
    rewrite IH. reflexivity.
Qed.

(** What the handler does once an annotated element was found. *)
Lemma dispatch_found JSON_parse nodeCallback edgeCallback event data h r :
  let run :=
    if looseEq (dataset data !! "eltype") "node" && supplied nodeCallback then
      if truthy (dataset data !! "nodedata") then
        match ReactFlow.parseAttr JSON_parse (dataset data !! "nodedata") with
        | None => throw
        | Some node => call nodeCallback event node
        end
      else ret
    else if looseEq (dataset data !! "eltype") "edge" && supplied edgeCallback then
      if truthy (dataset data !! "edgedata") then
        match ReactFlow.parseAttr JSON_parse (dataset data !! "edgedata") with
        | None => throw
        | Some edge => call edgeCallback event edge
        end
      else ret
    else ret in
  (run.1 = [] \/ exists h r, run.1 = [Invoke h event r])
  /\ (In (Invoke h event r) run.1 <->
      (nodeCallback = Some h /\ carries JSON_parse data "node" "nodedata" r)
      \/ (edgeCallback = Some h /\ carries JSON_parse data "edge" "edgedata" r)).
Proof.
  unfold carries. cbv zeta.
  destruct (looseEq (dataset data !! "eltype") "node") eqn:Hnode.
  - apply looseEq_true in Hnode. rewrite Hnode. simpl.
    destruct nodeCallback as [f|]; simpl.
    + destruct (dataset data !! "nodedata") as [s|] eqn:Hs; simpl.
      * destruct (String.eqb_spec s EmptyString) as [He|He]; simpl.
        -- split; [left; reflexivity|]. split; [intros []|].
           intros [(_ & _ & s' & Hs' & Hne & _)|(_ & Hk & _)]; congruence.
        -- destruct (JSON_parse s) as [node|] eqn:Hp; simpl.
           ++ split; [right; eauto|]. split.
              ** intros [Heq|[]]. inversion Heq; subst. left. eauto 10.
              ** intros [(Hf & _ & s' & Hs' & _ & Hp')|(_ & Hk & _)]; [|congruence].
                 left. congruence.
           ++ split; [left; reflexivity|]. split; [intros []|].
              intros [(_ & _ & s' & Hs' & _ & Hp')|(_ & Hk & _)]; congruence.
      * split; [left; reflexivity|]. split; [intros []|].
        intros [(_ & _ & s' & Hs' & _)|(_ & Hk & _)]; congruence.
    + split; [left; reflexivity|]. split; [intros []|].
      intros [(Hf & _)|(_ & Hk & _)]; congruence.
  - assert (dataset data !! "eltype" <> Some "node") as Hnot.
    { intros Heq. apply looseEq_true in Heq. congruence. }
    simpl.
    destruct (looseEq (dataset data !! "eltype") "edge") eqn:Hedge.
    + destruct edgeCallback as [g|]; simpl.
      * destruct (dataset data !! "edgedata") as [s|] eqn:Hs; simpl.
        -- destruct (String.eqb_spec s EmptyString) as [He|He]; simpl.
           ++ split; [left; reflexivity|]. split; [intros []|].
              intros [(_ & Hk & _)|(_ & _ & s' & Hs' & Hne & _)]; congruence.
           ++ destruct (JSON_parse s) as [edge|] eqn:Hp; simpl.
              ** split; [right; eauto|]. split.
                 --- intros [Heq|[]]. inversion Heq; subst. right.
                     apply looseEq_true in Hedge. eauto 10.
                 --- intros [(_ & Hk & _)|(Hg & _ & s' & Hs' & _ & Hp')]; [congruence|].
                     left. congruence.
              ** split; [left; reflexivity|]. split; [intros []|].
                 intros [(_ & Hk & _)|(_ & _ & s' & Hs' & _ & Hp')]; congruence.
        -- split; [left; reflexivity|]. split; [intros []|].
           intros [(_ & Hk & _)|(_ & _ & s' & Hs' & _)]; congruence.
      * split; [left; reflexivity|]. split; [intros []|].
        intros [(_ & Hk & _)|(Hg & _)]; congruence.
    + assert (dataset data !! "eltype" <> Some "edge") as Hnot'.
      { intros Heq. apply looseEq_true in Heq. congruence. }
      split; [left; reflexivity|]. split; [intros []|].
      intros [(_ & Hk & _)|(_ & Hk & _)]; congruence.
Qed.

(** C2, as amended.  The decorated handler follows the dispatch rule when
    the nearest annotated element is looked for among the event target and
    its ancestors below the listening element: the walk from the target
    stops in front of the listening element. *)
Theorem dispatch_on_nearest_annotated_below_listener
    (JSON_parse : string -> option Json)
    (nodeCallback edgeCallback : option Handler) (event : MouseEvent) :
  dispatchRule JSON_parse searchScope nodeCallback edgeCallback event.
Proof.
  unfold dispatchRule, searchScope, ReactFlow.eventHandlersDecorator.
  rewrite findNodeOrEdge_nearest.
  destruct (negb (supplied nodeCallback) && negb (supplied edgeCallback)) eqn:Hnone.
  - apply andb_prop in Hnone as [Hn He].
    destruct nodeCallback, edgeCallback; try discriminate.
    split; [left; reflexivity|]. split; [|reflexivity].
    intros h r. split; [intros []|].
    intros (el & _ & [(Hc & _)|(Hc & _)]); discriminate.
  - destruct (nearestAnnotated _) as [data|] eqn:Hfound.
    + split; [apply (dispatch_found JSON_parse nodeCallback edgeCallback event data 0
                       JNull)|].
      split.
      * intros h r.
        rewrite (proj2 (dispatch_found JSON_parse nodeCallback edgeCallback event data h r)).
        split.
        -- intros H. exists data. split; [reflexivity|exact H].
        -- intros (el & Hel & H). inversion Hel; subst. exact H.
      * intros -> ->. discriminate.
    + split; [left; reflexivity|]. split.
      * intros h r. split; [intros []|]. intros (el & Hel & _). discriminate.
      * intros -> ->. discriminate.
Qed.

(** C2, as the spec states it, fails where the nearest annotated element
    lies above the listening element: in a diagram nested in a node of
    another diagram, a click on the inner pane has the outer node as its
    nearest annotated ancestor, and the inner handler invokes nothing. *)
Lemma nearest_annotated_above_listener_not_dispatched :
  ~ dispatchRule Samples.parseIdRecord wholeChain (Some 10%nat) (Some 11%nat)
      Samples.nestedPaneClick.
Proof.
  intros (_ & Hiff & _).
  assert (In (Invoke 10%nat Samples.nestedPaneClick (Samples.idRecord "outer"))
             (ReactFlow.eventHandlersDecorator Samples.parseIdRecord (Some 10%nat)
                (Some 11%nat) Samples.nestedPaneClick).1) as Hin.
  { apply Hiff. exists (Samples.nodeElement 1 "outer").
    split; [vm_compute; reflexivity|].
    left. split; [reflexivity|].
    split; [vm_compute; reflexivity|].
    exists (Samples.idRecordText "outer").
    split; [vm_compute; reflexivity|].
    split; [vm_compute; discriminate|vm_compute; reflexivity]. }
  vm_compute in Hin. exact Hin.
Qed.

End DispatchFacts.

(** ** The hover handler of the newer container *)

Module HoverFacts.
Import Js Dom Statements Samples.

(** A handler that closes over the current value of [currentHovered]
    reports the leave of the node recorded before the enter of the new
    one. *)
Lemma current_hover_handler_leaves_first :
  ReactFlow.hoverEventHandlersDecorator parseIdRecord
    (mkHovered (Some "node") (idRecord "a"))
    (Some 1%nat) (Some 2%nat) (Some 3%nat) (Some 4%nat) overB
  = ([Invoke 3%nat overB (idRecord "a");
      SetCurrentHovered (mkHovered (Some "node") (idRecord "b"));
      Invoke 1%nat overB (idRecord "b")], Normal).
Proof. vm_compute. reflexivity. Qed.

(** While the two enter props stay the same functions, the handler of the
    first render is kept, whatever [currentHovered] has become. *)
Lemma hover_handler_kept props hovered slot hovered' :
  ReactFlow.onElMouseEnter
    (ReactFlow.render props hovered'
       (Some (ReactFlow.onElMouseEnter (ReactFlow.render props hovered slot))))
  = ReactFlow.onElMouseEnter (ReactFlow.render props hovered slot).
Proof.
  assert (forall a : option Handler, ReactFlow.sameCallback a a = true) as Hrefl.
  { intros [f|]; simpl; [apply Nat.eqb_refl|reflexivity]. }
  unfold ReactFlow.render, ReactFlow.useCallback; simpl.
  destruct slot as [m|]; simpl.
  - destruct (ReactFlow.sameDeps (ReactFlow.memoDeps m) _) eqn:Hdeps; simpl.
    + rewrite Hdeps. reflexivity.
    + rewrite !Hrefl. reflexivity.
  - rewrite !Hrefl. reflexivity.
Qed.

(** A handler that closes over the initial [currentHovered] never calls
    a leave callback: all it does is record the element and call an enter
    callback. *)
Lemma initial_hover_handler_never_leaves JSON_parse props event e :
  In e (ReactFlow.runClosure JSON_parse
          (ReactFlow.mkClosure (mkHovered None JNull) props) event).1 ->
  (exists h, e = SetCurrentHovered h)
  \/ (exists r, ReactFlow.onNodeMouseEnter props <> None
                /\ e = Invoke (default 0%nat (ReactFlow.onNodeMouseEnter props)) event r)
  \/ (exists r, ReactFlow.onEdgeMouseEnter props <> None
                /\ e = Invoke (default 0%nat (ReactFlow.onEdgeMouseEnter props)) event r).
Proof.
  unfold ReactFlow.runClosure, ReactFlow.hoverEventHandlersDecorator; simpl.
  destruct (negb _ && negb _); [intros []|].
  destruct (ReactFlow.findNodeOrEdge _ _ _) as [data|].
  2:{ rewrite !andb_false_r. intros []. }
  rewrite !andb_false_r.
  destruct (looseEq (dataset data !! "eltype") "node"
            && supplied (ReactFlow.onNodeMouseEnter props)) eqn:Hnode.
  - destruct (truthy _); [|intros []].
    destruct (ReactFlow.parseAttr _ _) as [node|]; [|intros []].
    apply andb_prop in Hnode as [_ Hsupplied].
    destruct (ReactFlow.onNodeMouseEnter props) as [f|]; [|discriminate].
    simpl.
    intros [<-|[<-|[]]]; [left; eauto|right; left; eexists; split; [discriminate|]].
    reflexivity.
  - destruct (looseEq (dataset data !! "eltype") "edge"
              && supplied (ReactFlow.onEdgeMouseEnter props)) eqn:Hedge; [|intros []].
    destruct (truthy _); [|intros []].
    destruct (ReactFlow.parseAttr _ _) as [edge|]; [|intros []].
    apply andb_prop in Hedge as [_ Hsupplied].
    destruct (ReactFlow.onEdgeMouseEnter props) as [g|]; [|discriminate].
    simpl.
    intros [<-|[<-|[]]]; [left; eauto|right; right; eexists; split; [discriminate|]].
    reflexivity.
Qed.

(** With the same props at every render, every [mouseover] of a sequence
    is handled by the handler of the first render. *)
Lemma stable_props_keep_first_handler JSON_parse props hovered slot events :
  let inst := ReactFlow.render props hovered slot in
  (ReactFlow.mouseOvers JSON_parse props inst events).2
  = map (ReactFlow.runClosure JSON_parse
           (ReactFlow.memoValue (ReactFlow.onElMouseEnter inst))) events.
Proof.
  cbv zeta. revert hovered slot.
  induction events as [|event events IH]; intros hovered slot; [reflexivity|].
  cbn [ReactFlow.mouseOvers map]. unfold ReactFlow.mouseOver. cbn [fst snd].
  f_equal. rewrite IH, hover_handler_kept. reflexivity.
Qed.

(** C3, at the failing input.  With the four hover callbacks supplied and
    the same functions at every render, the pointer comes over the node
    [a] and then over the node [b]: the handler still closes over the
    initial [currentHovered], so the enter callback fires for [a] and for
    [b] and the leave callback of [a] is never invoked, while
    [currentHovered] ends as [b]. *)
Theorem stale_hover_handler_skips_leave :
  let result := ReactFlow.mouseOvers parseIdRecord stableHoverProps
                  (ReactFlow.mount stableHoverProps) [overA; overB] in
  result.2
  = [([SetCurrentHovered (mkHovered (Some "node") (idRecord "a"));
       Invoke 1%nat overA (idRecord "a")], Normal);
     ([SetCurrentHovered (mkHovered (Some "node") (idRecord "b"));
       Invoke 1%nat overB (idRecord "b")], Normal)]
  /\ ReactFlow.currentHovered result.1 = mkHovered (Some "node") (idRecord "b")
  /\ ReactFlow.capturedHovered (ReactFlow.memoValue (ReactFlow.onElMouseEnter result.1))
     = mkHovered None JNull.
Proof. vm_compute. repeat split; reflexivity. Qed.

End HoverFacts.

(** ** The node wrapper *)

Module WrapNodeFacts.
Import Js Types WrapNode Statements.

(** C4. The node wrapper never looks into the payload: for two payloads
    [d1] and [d2] of a node that is otherwise the same (and whatever the
    node map of the store holds), the wrapper is hidden in both runs or in
    neither, the rendered elements agree on everything but the [data] prop
    of the custom node component and the serialized node attribute, and
    the key handler and the re-measure effect do the same; the payload is
    forwarded as it is. *)
Theorem node_wrapper_never_inspects_data {D : Type}
    (elementSelectionKeys : list string) (ARIA_NODE_DESC_KEY : string)
    (dataToAttribute : option (Node D) -> string -> option string)
    (props : WrapNodeProps D) (d1 d2 : D) (dragging : bool)
    (nodeInternals1 nodeInternals2 : gmap string (Node D))
    (event : KeyboardEvent) (refs : Refs) :
  let run1 := NodeWrapper ARIA_NODE_DESC_KEY dataToAttribute (withData props d1)
                dragging nodeInternals1 in
  let run2 := NodeWrapper ARIA_NODE_DESC_KEY dataToAttribute (withData props d2)
                dragging nodeInternals2 in
  forgetData <$> run1 = forgetData <$> run2
  /\ onKeyDown elementSelectionKeys (withData props d1) event
     = onKeyDown elementSelectionKeys (withData props d2) event
  /\ remeasureEffect (withData props d1) refs = remeasureEffect (withData props d2) refs
  /\ (forall e, run1 = Some e ->
        np_data (el_child e) = d1
        /\ el_data_nodedata e = dataToAttribute (nodeInternals1 !! id props) "node").
Proof.
  unfold NodeWrapper, onKeyDown, remeasureEffect, withData; simpl.
  split; [destruct (hidden props); reflexivity|].
  split; [reflexivity|].
  split; [reflexivity|].
  intros e. destruct (hidden props); [discriminate|].
  intros [= <-]. split; reflexivity.
Qed.

Lemma arrowKeyDiffs_unitDelta k : arrowKeyDiffs !! k = unitDelta k.
Proof.
  unfold arrowKeyDiffs, unitDelta.
  destruct (String.eqb_spec k "ArrowUp") as [->|H1]; [reflexivity|].
  destruct (String.eqb_spec k "ArrowDown") as [->|H2]; [reflexivity|].
  destruct (String.eqb_spec k "ArrowLeft") as [->|H3]; [reflexivity|].
  destruct (String.eqb_spec k "ArrowRight") as [->|H4]; [reflexivity|].
  rewrite !lookup_insert_ne by congruence.
  apply lookup_singleton_ne. congruence.
Qed.

Lemma existsb_eqb_false k keys :
  ~ In k keys -> existsb (String.eqb k) keys = false.
Proof.
  induction keys as [|k' keys IH]; simpl; [reflexivity|].
  intros Hnot. destruct (String.eqb_spec k k') as [->|Hne].
  - exfalso. apply Hnot. left. reflexivity.
  - simpl. apply IH. intros Hin. apply Hnot. right. exact Hin.
Qed.

Lemma updateNodePositions_lookup st delta dragged dragging nid n :
  GraphStore.nodes st !! nid = Some n ->
  GraphStore.nodes (GraphStore.updateNodePositions st delta dragged dragging).1 !! nid
  = Some (if GraphStore.moves dragged nid n then GraphStore.moved st delta n else n).
Proof.
  intros Hn. unfold GraphStore.updateNodePositions; simpl.
  rewrite map_lookup_imap, Hn. reflexivity.
Qed.


End WrapNodeFacts.

(** ** The configuration of the container *)

Module ContainerFacts.
Import Js Types Container ViewportStore.

(** C7. Every configuration option is a prop of the container and reaches
    the children that take it as it was given: the store updater gets
    [connectionMode], [connectionRadius], [snapToGrid] and [snapGrid], the
    graph view gets [selectionMode], and both get [nodeOrigin], [minZoom],
    [maxZoom], [translateExtent] and [nodeExtent].  An omitted option takes
    its default: Strict, Full, 20, 0.5, 2, false, [15,15], [0,0] and the
    infinite extent; [nodeExtent] has no default and stays omitted. *)
Theorem configuration_forwarded_with_defaults
    (infiniteExtent : CoordinateExtent) (props : ReactFlowProps) :
  let gv := (ReactFlow infiniteExtent props).1 in
  let su := (ReactFlow infiniteExtent props).2 in
  su_connectionMode su = default Strict (connectionMode props)
  /\ su_connectionRadius su = default 20%Q (connectionRadius props)
  /\ gv_selectionMode gv = default Full (selectionMode props)
  /\ gv_nodeOrigin gv = default (0%Q, 0%Q) (nodeOrigin props)
  /\ su_nodeOrigin su = default (0%Q, 0%Q) (nodeOrigin props)
  /\ gv_minZoom gv = default 0.5%Q (minZoom props)
  /\ su_minZoom su = default 0.5%Q (minZoom props)
  /\ gv_maxZoom gv = default 2%Q (maxZoom props)
  /\ su_maxZoom su = default 2%Q (maxZoom props)
  /\ gv_translateExtent gv = default infiniteExtent (translateExtent props)
  /\ su_translateExtent su = default infiniteExtent (translateExtent props)
  /\ gv_nodeExtent gv = nodeExtent props
  /\ su_nodeExtent su = nodeExtent props
  /\ su_snapToGrid su = default false (snapToGrid props)
  /\ su_snapGrid su = default (15%Q, 15%Q) (snapGrid props).
Proof. cbv zeta. unfold ReactFlow. simpl. repeat split. Qed.

Lemma clamp_in_bounds val lo hi :
  (lo <= hi)%Q -> (lo <= clamp val lo hi /\ clamp val lo hi <= hi)%Q.
Proof.
  intros Hle. unfold clamp. split.
  - apply Q.min_glb; [apply Q.le_max_r|exact Hle].
  - apply Q.le_min_r.
Qed.

Lemma construct_bounds gv st :
  construct gv = Some st ->
  (stMinZoom st <= stMaxZoom st)%Q /\ zoomInBounds st.
Proof.
  unfold construct. destruct (Qle_bool (gv_minZoom gv) (gv_maxZoom gv)) eqn:Hle;
    [|discriminate].
  apply Qle_bool_iff in Hle. intros [= <-]. unfold zoomInBounds; simpl.
  split; [exact Hle|apply clamp_in_bounds; exact Hle].
Qed.

Lemma mutate_bounds st m :
  (stMinZoom st <= stMaxZoom st)%Q -> zoomInBounds st ->
  (stMinZoom (mutate st m) <= stMaxZoom (mutate st m))%Q /\ zoomInBounds (mutate st m).
Proof.
  intros Hle Hin. split; [exact Hle|].
  unfold zoomInBounds, mutate; simpl.
  destruct m; simpl; try (apply clamp_in_bounds; exact Hle).
  exact Hin.
Qed.

Lemma mutations_bounds ms st :
  (stMinZoom st <= stMaxZoom st)%Q -> zoomInBounds st ->
  zoomInBounds (mutations st ms).
Proof.
  unfold mutations. revert st.
  induction ms as [|m ms IH]; intros st Hle Hin; simpl; [exact Hin|].
  destruct (mutate_bounds st m Hle Hin) as [Hle' Hin'].
  apply IH; assumption.
Qed.


End ContainerFacts.

(** ** The node dimensions in the store *)

Module GraphStoreFacts.
Import Js Types GraphStore Statements.

Lemma within_contains inner outer : within inner outer = true <-> contains outer inner.
Proof.
  unfold within, contains. rewrite !andb_true_iff, !Qle_bool_iff. tauto.
Qed.

Lemma contains_refl b : contains b b.
Proof. unfold contains. repeat split; apply Qle_refl. Qed.

Lemma contains_trans a b c : contains a b -> contains b c -> contains a c.
Proof.
  unfold contains. intros (?&?&?&?) (?&?&?&?).
  repeat split; eapply Qle_trans; eassumption.
Qed.

Lemma unionBox_contains_l a b : contains (unionBox a b) a.
Proof.
  unfold contains, unionBox; simpl.
  repeat split; auto using Q.le_min_l, Q.le_max_l.
Qed.

Lemma unionBox_contains_r a b : contains (unionBox a b) b.
Proof.
  unfold contains, unionBox; simpl.
  repeat split; auto using Q.le_min_r, Q.le_max_r.
Qed.

Lemma union_contains_each own boxes b :
  b ∈ boxes -> contains (foldr unionBox own boxes) b.
Proof.
  induction boxes as [|c boxes IH]; intros Hin; [inversion Hin|].
  apply elem_of_cons in Hin as [->|Hin]; simpl.
  - apply unionBox_contains_l.
  - eapply contains_trans; [apply unionBox_contains_r|apply IH; exact Hin].
Qed.

Lemma grow_contains m b : (0 <= m)%Q -> contains (grow m b) b.
Proof. intros Hm. unfold contains, grow; simpl. repeat split; lra. Qed.

Lemma nodeBox_ext a b k :
  nodes a !! k = nodes b !! k -> measured a !! k = measured b !! k ->
  nodeBox a k = nodeBox b k.
Proof. unfold nodeBox. intros -> ->. reflexivity. Qed.

Lemma child_box_listed st id n pid cb :
  nodes st !! id = Some n -> parentId n = Some pid -> nodeBox st id = Some cb ->
  cb ∈ childBoxes st pid.
Proof.
  intros Hn Hp Hcb. unfold childBoxes. apply list_elem_of_omap.
  exists (id, n). split; [apply elem_of_map_to_list; exact Hn|].
  simpl. rewrite bool_decide_eq_true_2 by exact Hp. exact Hcb.
Qed.

Section ParentExpansion.
Variable margin : number.
Hypothesis margin_nonneg : (0 <= margin)%Q.

Lemma enlarge_other st pid k :
  k <> pid ->
  nodes (enlarge margin st pid) !! k = nodes st !! k
  /\ measured (enlarge margin st pid) !! k = measured st !! k.
Proof.
  intros Hne. unfold enlarge.
  destruct (nodes st !! pid) as [p|]; [|split; reflexivity].
  destruct (nodeBox st pid) as [own|]; [|split; reflexivity].
  simpl. split; apply lookup_insert_ne; congruence.
Qed.

(** The enlarged parent contains the child whose box did not fit. *)
Lemma enlarge_contains st id n pid cb pb :
  nodes st !! id = Some n -> parentId n = Some pid ->
  nodeBox st id = Some cb -> nodeBox st pid = Some pb ->
  exists pb', nodeBox (enlarge margin st pid) pid = Some pb' /\ within cb pb' = true.
Proof.
  intros Hn Hp Hcb Hpb. unfold enlarge. rewrite Hpb.
  destruct (nodes st !! pid) as [p|] eqn:Hpnode.
  2:{ unfold nodeBox in Hpb. rewrite Hpnode in Hpb. discriminate. }
  set (b := grow margin (foldr unionBox pb (childBoxes st pid))).
  unfold nodeBox; simpl. rewrite !lookup_insert_eq.
  eexists. split; [reflexivity|].
  apply within_contains.
  assert (contains b cb) as (H1 & H2 & H3 & H4).
  { eapply contains_trans; [apply grow_contains; exact margin_nonneg|].
    apply union_contains_each. exact (child_box_listed st id n pid cb Hn Hp Hcb). }
  subst b. unfold grow in *. cbn [bx1 by1 bx2 by2] in *.
  unfold contains, boxOf; simpl. repeat split; lra.
Qed.

Lemma expandAncestors_preserves fuel visited st id k :
  k ∈ visited ->
  nodes (expandAncestors margin fuel visited st id) !! k = nodes st !! k
  /\ measured (expandAncestors margin fuel visited st id) !! k = measured st !! k.
Proof.
  revert visited st id.
  induction fuel as [|fuel IH]; intros visited st id Hk; simpl; [split; reflexivity|].
  destruct (nodes st !! id) as [n|]; [|split; reflexivity].
  destruct (parentId n) as [pid|]; [|split; reflexivity].
  case_bool_decide as Hvisited; [split; reflexivity|].
  destruct (nodeBox st id) as [cb|]; [|split; reflexivity].
  destruct (nodeBox st pid) as [pb|]; [|split; reflexivity].
  destruct (within cb pb); [split; reflexivity|].
  assert (k <> pid) as Hne by (intros ->; contradiction).
  destruct (IH (pid :: visited) (enlarge margin st pid) pid) as [Hnodes Hmeasured].
  { apply elem_of_cons. right. exact Hk. }
  destruct (enlarge_other st pid k Hne) as [Hnodes' Hmeasured'].
  split; congruence.
Qed.

(** After a report, the reported node fits its parent wherever the
    expansion applies, so that a second expansion has nothing to do. *)
Lemma expandAncestors_settled fuel fuel' st id :
  expandAncestors margin fuel' [id]
    (expandAncestors margin (S fuel) [id] st id) id
  = expandAncestors margin (S fuel) [id] st id.
Proof.
  destruct fuel' as [|fuel']; [reflexivity|].
  cbn [expandAncestors].
  destruct (nodes st !! id) as [n|] eqn:Hn; [|rewrite Hn; reflexivity].
  destruct (parentId n) as [pid|] eqn:Hp; [|rewrite Hn, Hp; reflexivity].
  case_bool_decide as Hvisited.
  { rewrite Hn, Hp. rewrite bool_decide_eq_true_2 by exact Hvisited. reflexivity. }
  destruct (nodeBox st id) as [cb|] eqn:Hcb.
  2:{ rewrite Hn, Hp, Hcb. rewrite bool_decide_eq_false_2 by exact Hvisited. reflexivity. }
  destruct (nodeBox st pid) as [pb|] eqn:Hpb.
  2:{ rewrite Hn, Hp, Hcb, Hpb. rewrite bool_decide_eq_false_2 by exact Hvisited.
      reflexivity. }
  destruct (within cb pb) eqn:Hfit.
  { rewrite Hn, Hp, Hcb, Hpb, Hfit. rewrite bool_decide_eq_false_2 by exact Hvisited.
    reflexivity. }
  assert (id <> pid) as Hne.
  { intros ->. apply Hvisited. apply list_elem_of_singleton. reflexivity. }
  set (st2 := enlarge margin st pid).
  set (stF := expandAncestors margin fuel [pid; id] st2 pid).
  destruct (expandAncestors_preserves fuel [pid; id] st2 pid id) as [Hni Hmi].
  { apply elem_of_cons. right. apply list_elem_of_singleton. reflexivity. }
  destruct (expandAncestors_preserves fuel [pid; id] st2 pid pid) as [Hnp Hmp].
  { apply elem_of_cons. left. reflexivity. }
  destruct (enlarge_other st pid id Hne) as [Hni' Hmi'].
  destruct (enlarge_contains st id n pid cb pb Hn Hp Hcb Hpb) as (pb' & Hpb' & Hfit').
  fold st2 in Hni', Hmi', Hpb'. fold stF in Hni, Hmi, Hnp, Hmp.
  assert (nodes stF !! id = Some n) as HnF by congruence.
  assert (nodeBox stF id = Some cb) as HcbF.
  { rewrite <- Hcb. apply nodeBox_ext; congruence. }
  assert (nodeBox stF pid = Some pb') as HpbF.
  { rewrite <- Hpb'. apply nodeBox_ext; congruence. }
  rewrite HnF, Hp, HcbF, HpbF, Hfit'.
  rewrite bool_decide_eq_false_2 by exact Hvisited. reflexivity.
Qed.

Lemma reportDimensions_measured st m :
  measured (reportDimensions margin st m) !! mId m = Some (mSize m).
Proof.
  unfold reportDimensions.
  match goal with
  | |- measured (expandAncestors _ ?f ?v ?s ?i) !! _ = _ =>
      destruct (expandAncestors_preserves f v s i (mId m)) as [_ Hm]
  end.
  { apply list_elem_of_singleton. reflexivity. }
  rewrite Hm. simpl. apply lookup_insert_eq.
Qed.


End ParentExpansion.

End GraphStoreFacts.

(** ** The edge router *)

Module EdgeRouterFacts.
Import Js Types EdgeRouter Statements.

Lemma aligned_perpendicular f s t :
  aligned f s t = true <-> perpendicularAligned f s t.
Proof.
  unfold aligned, perpendicularAligned.
  destruct f; simpl; apply Qeq_bool_iff.
Qed.

Lemma stepPoints_aligned options s t f :
  perpendicularAligned f s t -> stepPoints options s f t f = [s; t].
Proof.
  intros Haligned. apply aligned_perpendicular in Haligned.
  unfold stepPoints, chooseBends.
  rewrite bool_decide_eq_true_2 by reflexivity.
  rewrite Haligned. reflexivity.
Qed.

(** C9. When both handles face the same direction and are exactly aligned
    on the perpendicular axis, the step and the smoothstep router return
    the single segment from the source to the target. *)
Theorem aligned_same_facing_is_one_segment
    (options : Options) (s t : XYPosition) (f : Position) :
  perpendicularAligned f s t ->
  path (getStepPath options s f t f) = Polyline [s; t] 0%Q
  /\ path (getSmoothStepPath options s f t f) = Polyline [s; t] (borderRadius options).
Proof.
  intros Haligned. unfold getStepPath, getSmoothStepPath; simpl.
  rewrite !stepPoints_aligned by exact Haligned. split; reflexivity.
Qed.

End EdgeRouterFacts.

(** ** The statements at sample inputs *)

Module Witnesses.
Import Js Types Statements Samples.




(** The regression case of the spec: source facing right at (0,50), target
    facing right at (200,50). *)
Lemma aligned_same_facing_is_one_segment_witness :
  EdgeRouter.path (EdgeRouter.getStepPath routerOptions (mkXY 0%Q 50%Q) Right
                     (mkXY 200%Q 50%Q) Right)
  = EdgeRouter.Polyline [mkXY 0%Q 50%Q; mkXY 200%Q 50%Q] 0%Q
  /\ EdgeRouter.path (EdgeRouter.getSmoothStepPath routerOptions (mkXY 0%Q 50%Q) Right
                        (mkXY 200%Q 50%Q) Right)
     = EdgeRouter.Polyline [mkXY 0%Q 50%Q; mkXY 200%Q 50%Q] 5%Q.
Proof.
  apply (EdgeRouterFacts.aligned_same_facing_is_one_segment routerOptions
           (mkXY 0%Q 50%Q) (mkXY 200%Q 50%Q) Right).
  reflexivity.
Defined.

End Witnesses.

(** ** Event delegation: errors and the plain click prop *)

Module DelegationFacts.
Import Js Dom Statements.

Lemma below_without_listener listeningEl ancestors :
  Forall (fun a => sameElement a listeningEl = false) ancestors ->
  below listeningEl ancestors = ancestors.
Proof.
  induction 1 as [|a ancestors Ha _ IH]; simpl; [reflexivity|].
  rewrite Ha, IH. reflexivity.
Qed.

(** X1. When the listening element is not among the ancestors of the element
    the search starts from, as for an event whose target is the listening
    element itself, nothing stops the walk: the nearest annotated element
    up to the root is returned. *)
Theorem search_unbounded_without_listener_above node ancestors listeningEl :
  Forall (fun a => sameElement a listeningEl = false) ancestors ->
  ReactFlow.findNodeOrEdge node ancestors listeningEl
  = nearestAnnotated (node :: ancestors).
Proof.
  intros Habove. rewrite DispatchFacts.findNodeOrEdge_nearest.
  rewrite below_without_listener by exact Habove. reflexivity.
Qed.

(** X2. The decorated handler throws exactly when a callback is supplied for
    the type of the nearest annotated element below the listening element
    and the data attribute of that element is a non-empty text that
    [JSON.parse] refuses; it has then called nothing.  A missing or empty
    data attribute never throws. *)
Theorem handler_throws_on_unparsable_record_only JSON_parse nodeCallback edgeCallback event :
  let run := ReactFlow.eventHandlersDecorator JSON_parse nodeCallback edgeCallback event in
  (run.2 = Throw <->
   exists el s,
     nearestAnnotated (searchScope event) = Some el
     /\ ((supplied nodeCallback = true /\ dataset el !! "eltype" = Some "node"
          /\ dataset el !! "nodedata" = Some s)
         \/ (supplied edgeCallback = true /\ dataset el !! "eltype" = Some "edge"
             /\ dataset el !! "edgedata" = Some s))
     /\ s <> EmptyString /\ JSON_parse s = None)
  /\ (run.2 = Throw -> run.1 = []).
Proof.
  cbv zeta. unfold ReactFlow.eventHandlersDecorator, searchScope.
  rewrite DispatchFacts.findNodeOrEdge_nearest.
  destruct (negb (supplied nodeCallback) && negb (supplied edgeCallback)) eqn:Hnone.
  { apply andb_prop in Hnone as [Hn He].
    destruct nodeCallback, edgeCallback; try discriminate.
    split; [|discriminate]. split; [discriminate|].
    intros (el & s & _ & [(H & _)|(H & _)] & _); discriminate. }
  destruct (nearestAnnotated _) as [data|].
  2:{ split; [|discriminate]. split; [discriminate|].
      intros (el & s & H & _); discriminate. }
  destruct (looseEq (dataset data !! "eltype") "node") eqn:Hnode.
  - apply DispatchFacts.looseEq_true in Hnode.
    destruct nodeCallback as [f|]; simpl.
    + destruct (dataset data !! "nodedata") as [s|] eqn:Hs; simpl.
      * destruct (String.eqb_spec s EmptyString) as [->|Hne]; simpl.
        -- split; [|discriminate]. split; [discriminate|].
           intros (el & s' & [= <-] & [(_ & _ & Hs')|(_ & Ht & _)] & Hne' & _);
             congruence.
        -- destruct (JSON_parse s) eqn:Hparse; simpl.
           ++ split; [|discriminate]. split; [discriminate|].
              intros (el & s' & [= <-] & [(_ & _ & Hs')|(_ & Ht & _)] & _ & Hp);
                congruence.
           ++ split; [|reflexivity]. split; [|reflexivity].
              intros _. exists data, s. split; [reflexivity|].
              split; [left; auto|]. split; assumption.
      * split; [|discriminate]. split; [discriminate|].
        intros (el & s' & [= <-] & [(_ & _ & Hs')|(_ & Ht & _)] & _); congruence.
    + rewrite Hnode. simpl.
      split; [|destruct edgeCallback; discriminate].
      split; [destruct edgeCallback; discriminate|].
      intros (el & s' & [= <-] & [(H & _)|(_ & Ht & _)] & _); congruence.
  - assert (dataset data !! "eltype" <> Some "node") as Hnot.
    { intros Heq. apply DispatchFacts.looseEq_true in Heq. congruence. }
    simpl.
    destruct (looseEq (dataset data !! "eltype") "edge") eqn:Hedge.
    + apply DispatchFacts.looseEq_true in Hedge.
      destruct edgeCallback as [g|]; simpl.
      * destruct (dataset data !! "edgedata") as [s|] eqn:Hs; simpl.
        -- destruct (String.eqb_spec s EmptyString) as [->|Hne]; simpl.
           ++ split; [|discriminate]. split; [discriminate|].
              intros (el & s' & [= <-] & [(_ & Ht & _)|(_ & _ & Hs')] & Hne' & _);
                congruence.
           ++ destruct (JSON_parse s) eqn:Hparse; simpl.
              ** split; [|discriminate]. split; [discriminate|].
                 intros (el & s' & [= <-] & [(_ & Ht & _)|(_ & _ & Hs')] & _ & Hp);
                   congruence.
              ** split; [|reflexivity]. split; [|reflexivity].
                 intros _. exists data, s. split; [reflexivity|].
                 split; [right; auto|]. split; assumption.
        -- split; [|discriminate]. split; [discriminate|].
           intros (el & s' & [= <-] & [(_ & Ht & _)|(_ & _ & Hs')] & _); congruence.
      * split; [|discriminate]. split; [discriminate|].
        intros (el & s' & [= <-] & [(_ & Ht & _)|(H & _)] & _); congruence.
    + assert (dataset data !! "eltype" <> Some "edge") as Hnot'.
      { intros Heq. apply DispatchFacts.looseEq_true in Heq. congruence. }
      split; [|discriminate]. split; [discriminate|].
      intros (el & s' & [= <-] & [(_ & Ht & _)|(_ & Ht & _)] & _); congruence.
Qed.

Lemma delegation_never_notifies JSON_parse nodeCallback edgeCallback event f e :
  ~ In (Notify f e)
      (ReactFlow.eventHandlersDecorator JSON_parse nodeCallback edgeCallback event).1.
Proof.
  unfold ReactFlow.eventHandlersDecorator.
  destruct (negb _ && negb _); [intros []|].
  destruct (ReactFlow.findNodeOrEdge _ _ _) as [data|]; [|intros []].
  destruct nodeCallback, edgeCallback;
  repeat match goal with
    | |- context [if ?b then _ else _] => destruct b
    | |- context [match ?x with _ => _ end] => destruct x
    end; simpl; intros Hin;
    repeat match goal with H : _ \/ _ |- _ => destruct H end;
    first [contradiction|discriminate].
Qed.

Lemma logged_delegation_never_notifies JSON_parse nodeCallback edgeCallback event f e :
  ~ In (Notify f e)
      (ReactFlowLogged.eventHandlersDecorator JSON_parse nodeCallback edgeCallback event).1.
Proof.
  intros Hin.
  apply (delegation_never_notifies JSON_parse nodeCallback edgeCallback event f e).
  destruct (DispatchFacts.decorated_handlers_agree JSON_parse nodeCallback edgeCallback event)
    as [Heff _].
  cbv zeta in Heff. rewrite <- Heff. apply filter_In. split; [exact Hin|reflexivity].
Qed.

(** X3. A plain [onClick] prop is never called by the older container, for
    no gesture; the newer container calls it on a click, once and before
    the node or edge callback, and for no other gesture. *)
Theorem plain_onClick_called_before_delegation JSON_parse props event :
  (forall gesture f e,
      ~ In (Notify f e) (ReactFlowLogged.handlerOf JSON_parse props gesture event).1)
  /\ (forall gesture f e, gesture <> Click ->
        ~ In (Notify f e) (ReactFlow.handlerOf JSON_parse props gesture event).1)
  /\ (ReactFlow.handlerOf JSON_parse props Click event).1
     = match onClick props with Some f => [Notify f event] | None => [] end
       ++ (ReactFlow.eventHandlersDecorator JSON_parse (onNodeClick props)
             (onEdgeClick props) event).1.
Proof.
  split; [|split].
  - intros gesture f e. destruct gesture; apply logged_delegation_never_notifies.
  - intros gesture f e Hgesture.
    destruct gesture; try contradiction; apply delegation_never_notifies.
  - cbn [ReactFlow.handlerOf]. unfold ReactFlow.onClk, ReactFlow.onElClick.
    destruct (onClick props); reflexivity.
Qed.

End DelegationFacts.

(** ** The hover handler over sequences of renders *)

Module HoverSequenceFacts.
Import Js Dom Statements HoverStatements.

Ltac split_conditions :=
  repeat match goal with
    | H : _ && _ = true |- _ => apply andb_prop in H; destruct H
    | H : supplied ?c = true |- _ => destruct c; [clear H|discriminate H]
    | H : looseEq _ _ = true |- _ => apply DispatchFacts.looseEq_true in H
    end.

Lemma hover_run_cases JSON_parse hovered ne ee nl el event :
  let run := ReactFlow.hoverEventHandlersDecorator JSON_parse hovered ne ee nl el event in
  run = ([], Normal) \/ run = ([], Throw)
  \/ (exists f, (nl = Some f \/ el = Some f)
        /\ run = ([Invoke f event (hovEl hovered);
                   SetCurrentHovered (mkHovered None JNull)], Normal))
  \/ (exists pre k r f,
        run = (pre ++ [SetCurrentHovered (mkHovered (Some k) r); Invoke f event r], Normal)
        /\ ((k = "node" /\ ne = Some f) \/ (k = "edge" /\ ee = Some f))
        /\ (pre = [] \/ exists g, (nl = Some g \/ el = Some g)
                                  /\ pre = [Invoke g event (hovEl hovered)])).
Proof.
  cbv zeta. unfold ReactFlow.hoverEventHandlersDecorator.
  destruct (negb (supplied ne) && negb (supplied ee)); [left; reflexivity|].
  destruct (ReactFlow.findNodeOrEdge _ _ _) as [data|].
  - destruct (looseEq (dataset data !! "eltype") "node" && supplied ne) eqn:Hnode.
    + destruct (truthy _); [|left; reflexivity].
      destruct (ReactFlow.parseAttr _ _) as [node|]; [|right; left; reflexivity].
      split_conditions.
      match goal with H : dataset data !! "eltype" = _ |- _ => rewrite H end.
      destruct (ReactFlow.attrDiffers _ _ && supplied el && truthyJson _) eqn:Hleave.
      * split_conditions. right; right; right.
        eexists [_], "node", node, _. simpl. eauto 10.
      * destruct (truthyJson (hovEl hovered)).
        -- destruct (ReactFlow.idDiffers node (hovEl hovered)) as [differs|];
             [|right; left; reflexivity].
           destruct (differs && supplied nl) eqn:Hdiff.
           ++ split_conditions. right; right; right.
              eexists [_], "node", node, _. simpl. eauto 10.
           ++ right; right; right. eexists [], "node", node, _. simpl. eauto 10.
        -- right; right; right. eexists [], "node", node, _. simpl. eauto 10.
    + destruct (looseEq (dataset data !! "eltype") "edge" && supplied ee) eqn:Hedge;
        [|left; reflexivity].
      destruct (truthy _); [|left; reflexivity].
      destruct (ReactFlow.parseAttr _ _) as [edge|]; [|right; left; reflexivity].
      split_conditions.
      match goal with H : dataset data !! "eltype" = _ |- _ => rewrite H end.
      destruct (truthyJson _ && ReactFlow.attrDiffers _ _ && supplied nl) eqn:Hleave.
      * split_conditions. right; right; right.
        eexists [_], "edge", edge, _. simpl. eauto 10.
      * destruct (truthyJson (hovEl hovered)).
        -- destruct (ReactFlow.idDiffers edge (hovEl hovered)) as [differs|];
             [|right; left; reflexivity].
           destruct (differs && supplied el) eqn:Hdiff.
           ++ split_conditions. right; right; right.
              eexists [_], "edge", edge, _. simpl. eauto 10.
           ++ right; right; right. eexists [], "edge", edge, _. simpl. eauto 10.
        -- right; right; right. eexists [], "edge", edge, _. simpl. eauto 10.
  - destruct (supplied el && looseEq _ "edge") eqn:Hedge.
    + split_conditions. right; right; left. eexists. split; [right; reflexivity|reflexivity].
    + destruct (supplied nl && looseEq _ "node") eqn:Hnode; [|left; reflexivity].
      split_conditions. right; right; left. eexists. split; [left; reflexivity|reflexivity].
Qed.

Lemma applySetState_wellFormed effects :
  forall hovered,
  wellFormedHovered hovered ->
  (forall h, In (SetCurrentHovered h) effects -> wellFormedHovered h) ->
  wellFormedHovered (ReactFlow.applySetState hovered effects).
Proof.
  induction effects as [|e effects IH]; intros hovered Hwf Hsets; simpl; [exact Hwf|].
  destruct e; try (apply IH; [exact Hwf|intros h Hin; apply Hsets; right; exact Hin]).
  apply IH; [apply Hsets; left; reflexivity|intros h' Hin; apply Hsets; right; exact Hin].
Qed.

Lemma hover_run_sets_wellFormed JSON_parse c event h :
  In (SetCurrentHovered h) (ReactFlow.runClosure JSON_parse c event).1 ->
  wellFormedHovered h.
Proof.
  unfold ReactFlow.runClosure.
  destruct (hover_run_cases JSON_parse (ReactFlow.capturedHovered c)
              (ReactFlow.onNodeMouseEnter (ReactFlow.capturedProps c))
              (ReactFlow.onEdgeMouseEnter (ReactFlow.capturedProps c))
              (ReactFlow.onNodeMouseLeave (ReactFlow.capturedProps c))
              (ReactFlow.onEdgeMouseLeave (ReactFlow.capturedProps c)) event)
    as [->|[->|[(f & _ & ->)|(pre & k & r & f & -> & Hk & Hpre)]]]; simpl.
  - intros [].
  - intros [].
  - intros [H|[H|[]]]; [discriminate|]. injection H as <-. left. reflexivity.
  - intros Hin. apply in_app_or in Hin as [Hin|[H|[H|[]]]]; [| |discriminate].
    + destruct Hpre as [->|(g & _ & ->)]; [destruct Hin|].
      destruct Hin as [H|[]]. discriminate.
    + injection H as <-. right. exists r.
      destruct Hk as [[-> _]|[-> _]]; [left|right]; reflexivity.
Qed.

Lemma hover_run_shape JSON_parse c event :
  hoverRunShape event (ReactFlow.runClosure JSON_parse c event).
Proof.
  unfold ReactFlow.runClosure, hoverRunShape.
  destruct (hover_run_cases JSON_parse (ReactFlow.capturedHovered c)
              (ReactFlow.onNodeMouseEnter (ReactFlow.capturedProps c))
              (ReactFlow.onEdgeMouseEnter (ReactFlow.capturedProps c))
              (ReactFlow.onNodeMouseLeave (ReactFlow.capturedProps c))
              (ReactFlow.onEdgeMouseLeave (ReactFlow.capturedProps c)) event)
    as [H|[H|[(f & _ & H)|(pre & k & r & f & H & Hk & Hpre)]]]; rewrite H.
  - left. reflexivity.
  - right; left. reflexivity.
  - right; right; left. eauto.
  - right; right; right. exists pre, k, r, f. split; [reflexivity|]. split.
    + destruct Hk as [[-> _]|[-> _]]; [left|right]; reflexivity.
    + destruct Hpre as [->|(g & _ & ->)]; [left; reflexivity|right; eauto].
Qed.

(** X4. Whatever the props of the renders are and whichever handler is kept,
    every [mouseover] of a sequence makes its calls in order: at most one
    leave call, first; then the state update; then the enter call, on the
    record that was just recorded.  A run that throws has done nothing. *)
Theorem hover_calls_in_order JSON_parse inst steps :
  Forall2 (fun step run => hoverRunShape step.1 run) steps
    (HoverSequences.mouseOversWith JSON_parse inst steps).2.
Proof.
  revert inst.
  induction steps as [|step steps IH]; intros inst; simpl; constructor.
  - apply hover_run_shape.
  - apply IH.
Qed.

(** X5. [currentHovered] is always either empty or the record of a node or of
    an edge: no sequence of events and renders leads anywhere else. *)
Theorem currentHovered_stays_well_formed JSON_parse props steps :
  wellFormedHovered
    (ReactFlow.currentHovered
       (HoverSequences.mouseOversWith JSON_parse (ReactFlow.mount props) steps).1).
Proof.
  assert (forall inst, wellFormedHovered (ReactFlow.currentHovered inst) ->
            wellFormedHovered
              (ReactFlow.currentHovered
                 (HoverSequences.mouseOversWith JSON_parse inst steps).1)) as Hinv.
  { induction steps as [|step steps IH]; intros inst Hwf; simpl; [exact Hwf|].
    apply IH. simpl. apply applySetState_wellFormed; [exact Hwf|].
    intros h. apply hover_run_sets_wellFormed. }
  apply Hinv. left. reflexivity.
Qed.

Lemma carries_attr JSON_parse el kind attr r :
  carries JSON_parse el kind attr r ->
  looseEq (dataset el !! "eltype") kind = true
  /\ truthy (dataset el !! attr) = true
  /\ ReactFlow.parseAttr JSON_parse (dataset el !! attr) = Some r.
Proof.
  intros (Hkind & s & Hs & Hne & Hparse). rewrite Hkind, Hs. simpl.
  rewrite String.eqb_refl. split; [reflexivity|]. split; [|exact Hparse].
  destruct (String.eqb_spec s EmptyString); [contradiction|reflexivity].
Qed.

(** X6. With the four hover callbacks supplied and a handler that closes
    over the current state, every [mouseover] does what [intendedHover]
    says for what the pointer is over, and the four cases cover every
    event: over no element the recorded element is left and the state
    reset; over an element with a record the recorded element is left
    exactly when its value is truthy and it is of the other kind or has
    another id, and the new element is recorded and entered, except that
    a [null] record compared with a recorded element of its kind throws;
    over an annotated element without a record nothing is done, the
    recorded element is not left; an unparsable record throws with nothing
    done. *)
Theorem hover_step_as_intended JSON_parse (ne ee nl el : Handler) event prev :
  (exists now, pointerUnder JSON_parse event now)
  /\ forall now, pointerUnder JSON_parse event now ->
       ReactFlow.hoverEventHandlersDecorator JSON_parse (recordedAs prev)
         (Some ne) (Some ee) (Some nl) (Some el) event
       = intendedHover ne ee nl el event prev now.
Proof.
  split.
  - destruct (nearestAnnotated (searchScope event)) as [data|] eqn:Hfound;
      [|exists OverNothing; exact Hfound].
    assert (forall k,
              dataset data !! "eltype" = Some (kindName k) ->
              exists now, pointerUnder JSON_parse event now) as Hkind.
    { intros k Hk.
      destruct (dataset data !! dataAttr k) as [s|] eqn:Hs.
      - destruct (String.eqb_spec s EmptyString) as [->|Hne].
        + exists OverUnrecorded, data. split; [exact Hfound|].
          intros k' Hk'. rewrite Hk in Hk'.
          assert (k' = k) as -> by (destruct k, k'; simpl in Hk'; congruence).
          rewrite Hs. reflexivity.
        + destruct (JSON_parse s) as [r|] eqn:Hparse.
          * exists (Over k r), data. split; [exact Hfound|]. split; [exact Hk|].
            exists s. auto.
          * exists OverUnparsable, data, k, s. auto.
      - exists OverUnrecorded, data. split; [exact Hfound|].
        intros k' Hk'. rewrite Hk in Hk'.
        assert (k' = k) as -> by (destruct k, k'; simpl in Hk'; congruence).
        rewrite Hs. reflexivity. }
    destruct (dataset data !! "eltype") as [t|] eqn:Ht.
    + destruct (String.eqb_spec t "node") as [->|Hnode]; [apply (Hkind KNode); reflexivity|].
      destruct (String.eqb_spec t "edge") as [->|Hedge]; [apply (Hkind KEdge); reflexivity|].
      exists OverUnrecorded, data. split; [exact Hfound|].
      intros k Hk. rewrite Ht in Hk. destruct k; simpl in Hk; congruence.
    + exists OverUnrecorded, data. split; [exact Hfound|]. intros k Hk.
      rewrite Ht in Hk. discriminate.
  - intros now Hover.
    unfold ReactFlow.hoverEventHandlersDecorator. simpl.
    rewrite DispatchFacts.findNodeOrEdge_nearest. fold (searchScope event).
    destruct now as [| | |k' r]; unfold pointerUnder, pointerOver in Hover.
    + rewrite Hover.
      destruct prev as [[k old]|]; simpl; [|reflexivity].
      destruct k; reflexivity.
    + destruct Hover as (data & -> & Hnone).
      destruct (looseEq (dataset data !! "eltype") "node") eqn:Hnode; simpl.
      * apply DispatchFacts.looseEq_true in Hnode.
        pose proof (Hnone KNode Hnode) as Hattr. cbn [dataAttr] in Hattr.
        rewrite Hattr. reflexivity.
      * destruct (looseEq (dataset data !! "eltype") "edge") eqn:Hedge; simpl;
          [|reflexivity].
        apply DispatchFacts.looseEq_true in Hedge.
        pose proof (Hnone KEdge Hedge) as Hattr. cbn [dataAttr] in Hattr.
        rewrite Hattr. reflexivity.
    + destruct Hover as (data & k & s & -> & Heltype & Hs & Hne & Hparse).
      assert (truthy (dataset data !! dataAttr k) = true) as Htruthy.
      { rewrite Hs. simpl.
        destruct (String.eqb_spec s EmptyString); [contradiction|reflexivity]. }
      destruct k; cbn [kindName dataAttr] in *; rewrite Heltype; simpl;
        rewrite Htruthy; unfold ReactFlow.parseAttr; rewrite Hs, Hparse; reflexivity.
    + destruct Hover as (data & -> & Hcarries).
      pose proof (carries_attr _ _ _ _ _ Hcarries) as (Hkind & Htruthy & Hparse).
      destruct Hcarries as [Heltype _].
      destruct k'; cbn [kindName dataAttr] in *.
      * rewrite Hkind, Htruthy, Hparse, Heltype. simpl.
        destruct prev as [[k old]|]; simpl; [|reflexivity].
        destruct (truthyJson old) eqn:Hold; simpl.
        -- destruct k; simpl; [|reflexivity].
           unfold ReactFlow.idDiffers.
           destruct r; cbn [getId getIdOpt]; try reflexivity;
             match goal with
             | |- context [strictEq ?a ?b] => destruct (strictEq a b)
             end; reflexivity.
        -- destruct k; reflexivity.
      * assert (looseEq (dataset data !! "eltype") "node" = false) as Hnot.
        { rewrite Heltype. reflexivity. }
        rewrite Hnot, Hkind, Htruthy, Hparse, Heltype. simpl.
        destruct prev as [[k old]|]; simpl; [|reflexivity].
        destruct (truthyJson old) eqn:Hold; simpl.
        -- destruct k; simpl; [reflexivity|].
           unfold ReactFlow.idDiffers.
           destruct r; cbn [getId getIdOpt]; try reflexivity;
             match goal with
             | |- context [strictEq ?a ?b] => destruct (strictEq a b)
             end; reflexivity.
        -- destruct k; reflexivity.
Qed.

(** X7. With a node leave callback but no edge leave callback, leaving an
    edge for a node of another id calls the node leave callback with the
    record of the edge; and the other way round. *)
Theorem hover_leave_of_the_other_kind JSON_parse (enter leave : Handler) other event
    old r :
  isRecord old -> isRecord r ->
  strictEq (getIdOpt r) (getIdOpt old) = false ->
  (pointerOver JSON_parse event (Some (KNode, r)) ->
   ReactFlow.hoverEventHandlersDecorator JSON_parse (recordedAs (Some (KEdge, old)))
     (Some enter) other (Some leave) None event
   = ([Invoke leave event old;
       SetCurrentHovered (mkHovered (Some "node") r);
       Invoke enter event r], Normal))
  /\ (pointerOver JSON_parse event (Some (KEdge, r)) ->
      ReactFlow.hoverEventHandlersDecorator JSON_parse (recordedAs (Some (KNode, old)))
        other (Some enter) None (Some leave) event
      = ([Invoke leave event old;
          SetCurrentHovered (mkHovered (Some "edge") r);
          Invoke enter event r], Normal)).
Proof.
  intros [oldFields ->] [fields ->] Hid.
  split; intros (data & Hfound & Hcarries);
    pose proof (carries_attr _ _ _ _ _ Hcarries) as (Hkind & Htruthy & Hparse);
    destruct Hcarries as [Heltype _];
    cbn [kindName dataAttr] in *;
    unfold ReactFlow.hoverEventHandlersDecorator;
    rewrite DispatchFacts.findNodeOrEdge_nearest; fold (searchScope event);
    rewrite Hfound; cbn [supplied negb andb].
  - rewrite Hkind, Htruthy, Hparse, Heltype. simpl.
    unfold ReactFlow.idDiffers. simpl in *. rewrite Hid. reflexivity.
  - assert (looseEq (dataset data !! "eltype") "node" = false) as Hnot.
    { rewrite Heltype. reflexivity. }
    replace (negb (supplied other) && false) with false by (destruct other; reflexivity).
    rewrite Hnot, Hkind, Htruthy, Hparse, Heltype. simpl.
    unfold ReactFlow.idDiffers. simpl in *. rewrite Hid. reflexivity.
Qed.

Lemma sameCallback_refl a : ReactFlow.sameCallback a a = true.
Proof. destruct a; simpl; [apply Nat.eqb_refl|reflexivity]. Qed.

Lemma mount_holds p : holds (ReactFlow.mount p) nothingHovered p.
Proof. reflexivity. Qed.

Lemma render_kept inst hovered p q hovered' :
  holds inst hovered p -> enterKept p q ->
  holds (ReactFlow.render q hovered' (Some (ReactFlow.onElMouseEnter inst))) hovered p.
Proof.
  unfold holds. intros -> [Hn He]. unfold ReactFlow.render, ReactFlow.useCallback; simpl.
  rewrite Hn, He, !sameCallback_refl. reflexivity.
Qed.

Lemma render_changed inst hovered p q hovered' :
  holds inst hovered p -> enterChanged p q ->
  holds (ReactFlow.render q hovered' (Some (ReactFlow.onElMouseEnter inst))) hovered' q.
Proof.
  unfold holds, enterChanged. intros -> Hchanged.
  unfold ReactFlow.render, ReactFlow.useCallback; simpl in *.
  rewrite Hchanged. reflexivity.
Qed.

(** While the enter callbacks are kept, every event of the sequence is
    handled by the handler the instance holds at the start. *)
Lemma kept_enter_runs JSON_parse p hovered steps :
  Forall (fun step => enterKept p step.2) steps ->
  forall inst, holds inst hovered p ->
  (HoverSequences.mouseOversWith JSON_parse inst steps).2
  = map (fun step => ReactFlow.runClosure JSON_parse (ReactFlow.mkClosure hovered p) step.1)
      steps.
Proof.
  induction 1 as [|step steps Hstep Hsteps IH]; intros inst Hholds; [reflexivity|].
  cbn [HoverSequences.mouseOversWith map snd fst]. unfold ReactFlow.mouseOver.
  cbn [fst snd]. f_equal.
  - rewrite Hholds. reflexivity.
  - apply IH. eapply render_kept; eassumption.
Qed.

(** X8. While the two enter callbacks stay the same functions, every
    [mouseover] is handled by the handler of the first render, whatever
    leave callbacks the later renders supply: no callback but the two
    enter callbacks of the first render is ever called. *)
Theorem kept_enter_callbacks_never_leave JSON_parse props steps :
  Forall (fun step => enterKept props step.2) steps ->
  let runs := (HoverSequences.mouseOversWith JSON_parse (ReactFlow.mount props) steps).2 in
  runs = map (fun step => ReactFlow.runClosure JSON_parse
                            (ReactFlow.mkClosure nothingHovered props) step.1) steps
  /\ forall run f event r, In run runs -> In (Invoke f event r) run.1 ->
       ReactFlow.onNodeMouseEnter props = Some f \/ ReactFlow.onEdgeMouseEnter props = Some f.
Proof.
  intros Hkept. cbv zeta.
  rewrite (kept_enter_runs JSON_parse props nothingHovered steps Hkept _ (mount_holds props)).
  split; [reflexivity|].
  intros run f event r Hrun Hin.
  apply in_map_iff in Hrun as (step & <- & _).
  apply HoverFacts.initial_hover_handler_never_leaves in Hin
    as [(h & Heq)|[(r' & Hsome & Heq)|(r' & Hsome & Heq)]]; [discriminate| |].
  - injection Heq as -> _ _. left.
    destruct (ReactFlow.onNodeMouseEnter props); [reflexivity|contradiction].
  - injection Heq as -> _ _. right.
    destruct (ReactFlow.onEdgeMouseEnter props); [reflexivity|contradiction].
Qed.

(** X9. Without an enter callback the hover handler does nothing at all:
    leave callbacks alone are never called and [currentHovered] never
    changes, whatever the events. *)
Theorem leave_callbacks_need_an_enter_callback JSON_parse props steps :
  noEnter props -> Forall (fun step => noEnter step.2) steps ->
  let result := HoverSequences.mouseOversWith JSON_parse (ReactFlow.mount props) steps in
  Forall (fun run => run = ([], Normal)) result.2
  /\ ReactFlow.currentHovered result.1 = nothingHovered.
Proof.
  intros Hprops Hsteps. cbv zeta.
  assert (forall inst,
            noEnter (ReactFlow.capturedProps (ReactFlow.memoValue (ReactFlow.onElMouseEnter inst))) ->
            Forall (fun run => run = ([], Normal))
              (HoverSequences.mouseOversWith JSON_parse inst steps).2
            /\ ReactFlow.currentHovered
                 (HoverSequences.mouseOversWith JSON_parse inst steps).1
               = ReactFlow.currentHovered inst) as Hinv.
  { induction Hsteps as [|step steps Hstep Hsteps IH]; intros inst Hinst;
      [split; [constructor|reflexivity]|].
    cbn [HoverSequences.mouseOversWith fst snd].
    assert (ReactFlow.mouseOver JSON_parse step.2 inst step.1
            = (ReactFlow.render step.2 (ReactFlow.currentHovered inst)
                 (Some (ReactFlow.onElMouseEnter inst)), ([], Normal))) as Hrun.
    { unfold ReactFlow.mouseOver, ReactFlow.runClosure,
        ReactFlow.hoverEventHandlersDecorator.
      destruct Hinst as [-> ->]. reflexivity. }
    rewrite Hrun. cbn [fst snd].
    destruct (IH (ReactFlow.render step.2 (ReactFlow.currentHovered inst)
                    (Some (ReactFlow.onElMouseEnter inst)))) as [Hruns Hstate].
    { unfold ReactFlow.render, ReactFlow.useCallback; simpl.
      destruct (ReactFlow.sameDeps _ _); [exact Hinst|exact Hstep]. }
    split; [constructor; [reflexivity|exact Hruns]|exact Hstate]. }
  destruct (Hinv (ReactFlow.mount props) Hprops) as [Hruns Hstate].
  split; [exact Hruns|exact Hstate].
Qed.

Lemma changed_enter_runs JSON_parse steps :
  forall p inst,
  holds inst (ReactFlow.currentHovered inst) p ->
  enterChangedAtEveryRender p steps ->
  (HoverSequences.mouseOversWith JSON_parse inst steps).2
  = (currentOvers JSON_parse (ReactFlow.currentHovered inst) p steps).2
  /\ ReactFlow.currentHovered (HoverSequences.mouseOversWith JSON_parse inst steps).1
     = (currentOvers JSON_parse (ReactFlow.currentHovered inst) p steps).1.
Proof.
  induction steps as [|step steps IH]; intros p inst Hholds Hchanged;
    [split; reflexivity|].
  destruct Hchanged as [Hstep Hrest].
  cbn [HoverSequences.mouseOversWith currentOvers fst snd].
  unfold ReactFlow.mouseOver. cbn [fst snd]. rewrite Hholds. cbn [ReactFlow.memoValue].
  set (run := ReactFlow.runClosure JSON_parse _ step.1).
  set (hovered' := ReactFlow.applySetState (ReactFlow.currentHovered inst) run.1).
  destruct (IH step.2
              (ReactFlow.render step.2 hovered'
                 (Some (ReactFlow.mkMemo
                          [ReactFlow.onNodeMouseEnter p; ReactFlow.onEdgeMouseEnter p]
                          (ReactFlow.mkClosure (ReactFlow.currentHovered inst) p)))))
    as [Hruns Hstate].
  - unfold holds, ReactFlow.render, ReactFlow.useCallback; simpl.
    unfold enterChanged in Hstep. simpl in Hstep. rewrite Hstep. reflexivity.
  - exact Hrest.
  - simpl in Hruns, Hstate. split; [f_equal; exact Hruns|exact Hstate].
Qed.

(** X10. When the enter callbacks are new functions at every render, the
    mounted handler always closes over the current state: the sequence
    runs as if every [mouseover] were handled against the current value
    of [currentHovered] with the callbacks of the latest render. *)
Theorem changed_enter_callbacks_keep_handler_current JSON_parse props steps :
  enterChangedAtEveryRender props steps ->
  let result := HoverSequences.mouseOversWith JSON_parse (ReactFlow.mount props) steps in
  let expected := currentOvers JSON_parse nothingHovered props steps in
  result.2 = expected.2 /\ ReactFlow.currentHovered result.1 = expected.1.
Proof.
  intros Hchanged. cbv zeta.
  apply (changed_enter_runs JSON_parse steps props (ReactFlow.mount props)
           (mount_holds props) Hchanged).
Qed.

(** X11. The hover handler ends with the enter call the plain delegation of
    the two enter callbacks would make on the same event, and throws where
    the delegation throws; all it does before is the state update and at
    most one leave call, on the recorded element. *)
Theorem hover_extends_enter_delegation JSON_parse hovered ne ee nl el event :
  let hover := ReactFlow.hoverEventHandlersDecorator JSON_parse hovered ne ee nl el event in
  let plain := ReactFlow.eventHandlersDecorator JSON_parse ne ee event in
  (plain.2 = Throw -> hover = ([], Throw))
  /\ (hover.2 = Normal ->
      plain.2 = Normal
      /\ exists pre, hover.1 = pre ++ plain.1
                     /\ (forall f e r, In (Invoke f e r) pre -> r = hovEl hovered)
                     /\ (plain.1 <> [] -> exists h, last pre = Some (SetCurrentHovered h))).
Proof.
  cbv zeta.
  unfold ReactFlow.hoverEventHandlersDecorator, ReactFlow.eventHandlersDecorator.
  destruct (negb (supplied ne) && negb (supplied ee)).
  { split; [discriminate|]. intros _. split; [reflexivity|].
    exists []. split; [reflexivity|]. split; [intros f e r []|intros Hnil; contradiction]. }
  destruct (ReactFlow.findNodeOrEdge _ _ _) as [data|].
  - destruct (looseEq (dataset data !! "eltype") "node" && supplied ne) eqn:Hnode.
    + destruct (truthy _).
      2:{ split; [discriminate|]. intros _. split; [reflexivity|].
          exists []. split; [reflexivity|]. split; [intros f e r []|intros Hnil; contradiction]. }
      destruct (ReactFlow.parseAttr _ _) as [node|]; [|split; [reflexivity|discriminate]].
      split_conditions. simpl.
      split; [discriminate|].
      destruct (ReactFlow.attrDiffers _ _ && supplied el && truthyJson _) eqn:Hleave.
      * split_conditions. simpl. intros _. split; [reflexivity|].
        eexists [_; _]. split; [reflexivity|].
        split; [intros f e r [Hx|[Hx|[]]]; [injection Hx as _ _ <-; reflexivity|discriminate]
               |intros _; eexists; reflexivity].
      * destruct (truthyJson (hovEl hovered)).
        -- destruct (ReactFlow.idDiffers node (hovEl hovered)) as [differs|];
             [|discriminate].
           destruct (differs && supplied nl) eqn:Hdiff.
           ++ split_conditions. simpl. intros _. split; [reflexivity|].
              eexists [_; _]. split; [reflexivity|].
              split; [intros f e r [Hx|[Hx|[]]];
                        [injection Hx as _ _ <-; reflexivity|discriminate]
                     |intros _; eexists; reflexivity].
           ++ simpl. intros _. split; [reflexivity|].
              eexists [_]. split; [reflexivity|].
              split; [intros f e r [Hx|[]]; discriminate|intros _; eexists; reflexivity].
        -- simpl. intros _. split; [reflexivity|].
           eexists [_]. split; [reflexivity|].
           split; [intros f e r [Hx|[]]; discriminate|intros _; eexists; reflexivity].
    + destruct (looseEq (dataset data !! "eltype") "edge" && supplied ee) eqn:Hedge.
      2:{ split; [discriminate|]. intros _. split; [reflexivity|].
          exists []. split; [reflexivity|]. split; [intros f e r []|intros Hnil; contradiction]. }
      destruct (truthy _).
      2:{ split; [discriminate|]. intros _. split; [reflexivity|].
          exists []. split; [reflexivity|]. split; [intros f e r []|intros Hnil; contradiction]. }
      destruct (ReactFlow.parseAttr _ _) as [edge|]; [|split; [reflexivity|discriminate]].
      split_conditions. simpl.
      split; [discriminate|].
      destruct (truthyJson _ && ReactFlow.attrDiffers _ _ && supplied nl) eqn:Hleave.
      * split_conditions. simpl. intros _. split; [reflexivity|].
        eexists [_; _]. split; [reflexivity|].
        split; [intros f e r [Hx|[Hx|[]]]; [injection Hx as _ _ <-; reflexivity|discriminate]
               |intros _; eexists; reflexivity].
      * destruct (truthyJson (hovEl hovered)).
        -- destruct (ReactFlow.idDiffers edge (hovEl hovered)) as [differs|];
             [|discriminate].
           destruct (differs && supplied el) eqn:Hdiff.
           ++ split_conditions. simpl. intros _. split; [reflexivity|].
              eexists [_; _]. split; [reflexivity|].
              split; [intros f e r [Hx|[Hx|[]]];
                        [injection Hx as _ _ <-; reflexivity|discriminate]
                     |intros _; eexists; reflexivity].
           ++ simpl. intros _. split; [reflexivity|].
              eexists [_]. split; [reflexivity|].
              split; [intros f e r [Hx|[]]; discriminate|intros _; eexists; reflexivity].
        -- simpl. intros _. split; [reflexivity|].
           eexists [_]. split; [reflexivity|].
           split; [intros f e r [Hx|[]]; discriminate|intros _; eexists; reflexivity].
  - split; [discriminate|]. intros _. split; [reflexivity|].
    destruct (supplied el && looseEq _ "edge") eqn:Hedge.
    + split_conditions. simpl. eexists. split; [symmetry; apply app_nil_r|].
      split; [|intros Hnil; contradiction].
      intros f e r [Hx|[Hx|[]]]; [injection Hx as _ _ <-; reflexivity|discriminate].
    + destruct (supplied nl && looseEq _ "node") eqn:Hnode.
      * split_conditions. simpl. eexists. split; [symmetry; apply app_nil_r|].
        split; [|intros Hnil; contradiction].
        intros f e r [Hx|[Hx|[]]]; [injection Hx as _ _ <-; reflexivity|discriminate].
      * exists []. split; [reflexivity|]. split; [intros f e r []|intros Hnil; contradiction].
Qed.

End HoverSequenceFacts.

(** ** The effects of the node wrapper *)

Module WrapNodeEffectFacts.
Import Js Types WrapNode Statements WrapStatements.

Lemma toInt32_truncation v :
  toInt32 v = ((truncate v + 2 ^ 31) mod 2 ^ 32 - 2 ^ 31)%Z.
Proof.
  unfold toInt32, truncate. destruct v as [n d]. simpl.
  destruct (Qle_bool 0 (n # d)) eqn:Hsign.
  - apply Qle_bool_iff in Hsign. unfold Qle in Hsign. simpl in Hsign.
    rewrite Z.quot_div_nonneg by lia. reflexivity.
  - assert (n < 0)%Z as Hneg.
    { destruct (Z.ltb_spec n 0) as [Hlt|Hge]; [exact Hlt|].
      assert (Qle_bool 0 (n # d) = true) as Htrue
        by (apply Qle_bool_iff; unfold Qle; simpl; lia).
      congruence. }
    unfold Qceiling, Qfloor. simpl.
    replace (Z.quot n (Z.pos d)) with (- Z.quot (- n) (Z.pos d))%Z
      by (rewrite Z.quot_opp_l by lia; lia).
    rewrite Z.quot_div_nonneg by lia. reflexivity.
Qed.

Lemma toInt32_fits v :
  (- 2 ^ 31 <= truncate v < 2 ^ 31)%Z -> toInt32 v = truncate v.
Proof.
  intros Hfit. rewrite toInt32_truncation. rewrite Z.mod_small by lia. lia.
Qed.

Lemma arrowDirection_unitDelta k :
  is_Some (arrowDirection k) <-> is_Some (unitDelta k).
Proof.
  unfold arrowDirection, unitDelta.
  destruct (String.eqb k "ArrowUp"); [split; eauto|].
  destruct (String.eqb k "ArrowDown"); [split; eauto|].
  destruct (String.eqb k "ArrowLeft"); [split; eauto|].
  destruct (String.eqb k "ArrowRight"); [split; eauto|].
  split; intros [v Hv]; discriminate.
Qed.

(** X12. What an arrow key press announces.  On a node that is selected
    and draggable, with keyboard accessibility enabled, the focus not in
    an input element and the key not taken as a selection key, an arrow
    key sets the live message to the announcement of its direction (up,
    down, left, right) with the coordinates of the props at the key press,
    that is of the position before the move, each truncated towards zero
    (neither rounded nor floored) as long as it fits in 32 bits, and then
    asks for the position update.  A key that is no arrow key announces
    nothing. *)
Theorem arrow_key_announces_truncated_position {D : Type}
    (elementSelectionKeys : list string) (props : WrapNodeProps D)
    (event : KeyboardEvent) :
  let calls := onKeyDown elementSelectionKeys props event in
  (isInputDOMNode event = false ->
   disableKeyboardA11y props = false ->
   isDraggable props = true ->
   selected props = true ->
   (isSelectable props = true -> ~ In (key event) elementSelectionKeys) ->
   (- 2 ^ 31 <= truncate (xPos props) < 2 ^ 31)%Z ->
   (- 2 ^ 31 <= truncate (yPos props) < 2 ^ 31)%Z ->
   forall direction, arrowDirection (key event) = Some direction ->
     exists delta,
       arrowKeyDiffs !! key event = Some delta
       /\ calls
          = [SetAriaLiveMessage
               (announcement direction (truncate (xPos props)) (truncate (yPos props)));
             UpdatePositions (x delta) (y delta) (shiftKey event)])
  /\ (arrowDirection (key event) = None -> forall message, ~ announced message calls).
Proof.
  cbv zeta. split.
  - intros Hinput Ha11y Hdrag Hsel Hkeys Hx Hy direction Hdirection.
    assert (is_Some (unitDelta (key event))) as [delta Hdelta]
      by (apply arrowDirection_unitDelta; eauto).
    exists delta. rewrite WrapNodeFacts.arrowKeyDiffs_unitDelta.
    split; [exact Hdelta|].
    unfold onKeyDown. rewrite Hinput, Ha11y, Hdrag, Hsel.
    rewrite WrapNodeFacts.arrowKeyDiffs_unitDelta, Hdelta.
    assert (existsb (String.eqb (key event)) elementSelectionKeys && isSelectable props
            = false) as ->.
    { destruct (isSelectable props) eqn:Hselectable.
      - rewrite WrapNodeFacts.existsb_eqb_false by (apply Hkeys; reflexivity). reflexivity.
      - apply andb_false_r. }
    cbn [negb andb bool_decide]. rewrite bool_decide_eq_true_2 by eauto.
    f_equal. f_equal.
    unfold ariaLiveMessage, announcement.
    rewrite (toInt32_fits _ Hx), (toInt32_fits _ Hy).
    revert Hdirection. unfold arrowDirection.
    destruct (String.eqb_spec (key event) "ArrowUp") as [->|_];
      [intros [= <-]; reflexivity|].
    destruct (String.eqb_spec (key event) "ArrowDown") as [->|_];
      [intros [= <-]; reflexivity|].
    destruct (String.eqb_spec (key event) "ArrowLeft") as [->|_];
      [intros [= <-]; reflexivity|].
    destruct (String.eqb_spec (key event) "ArrowRight") as [->|_];
      [intros [= <-]; reflexivity|].
    discriminate.
  - intros Hnone message. unfold announced, onKeyDown.
    assert (unitDelta (key event) = None) as Hdelta.
    { destruct (unitDelta (key event)) as [delta|] eqn:Hdelta; [|reflexivity].
      assert (is_Some (arrowDirection (key event))) as [d Hd]
        by (apply arrowDirection_unitDelta; eauto).
      congruence. }
    rewrite WrapNodeFacts.arrowKeyDiffs_unitDelta, Hdelta.
    destruct (isInputDOMNode event); [intros []|].
    destruct (existsb _ _ && isSelectable props); [intros [H|[]]; discriminate|].
    rewrite andb_false_r. intros [].
Qed.

(** X13. A key press does one thing at most, and selection comes first: on a
    selectable node a selection key selects (Escape unselects), also when
    keyboard accessibility is disabled, the node is not draggable or the
    key is an arrow key as well; any other key press never selects; a key
    press from an input element does nothing. *)
Theorem selection_keys_come_first {D : Type}
    (elementSelectionKeys : list string) (props : WrapNodeProps D) (event : KeyboardEvent) :
  let calls := onKeyDown elementSelectionKeys props event in
  (isInputDOMNode event = true -> calls = [])
  /\ (isInputDOMNode event = false -> In (key event) elementSelectionKeys ->
      isSelectable props = true ->
      calls = [HandleNodeClick (id props) (String.eqb (key event) "Escape")])
  /\ (~ (In (key event) elementSelectionKeys /\ isSelectable props = true) ->
      forall nodeId unselect, ~ In (HandleNodeClick nodeId unselect) calls).
Proof.
  cbv zeta. unfold onKeyDown. split; [intros ->; reflexivity|]. split.
  - intros -> Hkey ->.
    assert (existsb (String.eqb (key event)) elementSelectionKeys = true) as ->.
    { apply existsb_exists. exists (key event). split; [exact Hkey|apply String.eqb_refl]. }
    reflexivity.
  - intros Hnot nodeId unselect.
    destruct (isInputDOMNode event); [intros []|].
    destruct (existsb (String.eqb (key event)) elementSelectionKeys
              && isSelectable props) eqn:Hsel.
    + exfalso. apply Hnot. apply andb_prop in Hsel as [Hkey Hselectable].
      split; [|exact Hselectable].
      apply existsb_exists in Hkey as (k & Hin & Heq).
      apply String.eqb_eq in Heq. subst k. exact Hin.
    + destruct (negb _ && _ && _ && _); [|intros []].
      destruct (arrowKeyDiffs !! key event); [|intros []].
      intros [H|[H|[]]]; discriminate.
Qed.

(** X14. The re-measure effect keeps the refs in step with the props: mounted,
    it reports the node, forced, exactly when the type or a handle
    position differs from what the refs remember, and afterwards the refs
    remember the props; not mounted, it reports nothing and the refs keep
    what they remembered, so that the difference is still seen once the
    node is mounted. *)
Theorem remeasure_effect_tracks_props {D : Type} (props : WrapNodeProps D) (refs : Refs) :
  let result := remeasureEffect props refs in
  (nodeRef refs = false -> result = (refs, []))
  /\ (nodeRef refs = true ->
      nodeRef result.1 = true
      /\ prevType result.1 = type props
      /\ prevSourcePosition result.1 = sourcePosition props
      /\ prevTargetPosition result.1 = targetPosition props
      /\ (remeasureNeeded props refs -> result.2 = [UpdateNodeDimensions (id props) true])
      /\ (~ remeasureNeeded props refs -> result.2 = [])).
Proof.
  cbv zeta. unfold remeasureEffect, remeasureNeeded.
  split; [intros ->; reflexivity|]. intros Href. rewrite Href. simpl.
  destruct (String.eqb_spec (prevType refs) (type props)) as [Ht|Ht];
    destruct (decide (prevSourcePosition refs = sourcePosition props)) as [Hs|Hs];
    destruct (decide (prevTargetPosition refs = targetPosition props)) as [Hp|Hp];
    rewrite ?(bool_decide_eq_true_2 _ Hs), ?(bool_decide_eq_false_2 _ Hs),
      ?(bool_decide_eq_true_2 _ Hp), ?(bool_decide_eq_false_2 _ Hp); simpl;
    repeat split; try assumption; try reflexivity;
    try (symmetry; assumption); try tauto.
Qed.

(** X15. The resize observer effect is balanced: a hidden or unmounted node is
    never registered and gets no clean-up; a shown one is registered, and
    its clean-up leaves the observer with what it observed besides that
    node. *)
Theorem observer_effect_is_balanced {D : Type} (props : WrapNodeProps D) (refs : Refs)
    (currNode : nat) (observed : gset nat) :
  let run := WrapNodeObserver.observeEffect props refs currNode (Some observed) in
  (hidden props = true \/ nodeRef refs = false -> run = (Some observed, false))
  /\ (hidden props = false -> nodeRef refs = true ->
      run = (Some ({[currNode]} ∪ observed), true)
      /\ WrapNodeObserver.observeCleanup run.2 currNode run.1
         = Some (observed ∖ {[currNode]}))
  /\ WrapNodeObserver.observeCleanup
       (WrapNodeObserver.observeEffect props refs currNode None).2 currNode
       (WrapNodeObserver.observeEffect props refs currNode None).1 = None.
Proof.
  cbv zeta. unfold WrapNodeObserver.observeEffect, WrapNodeObserver.observeCleanup.
  split; [|split].
  - intros [->| ->]; [rewrite andb_false_r|]; reflexivity.
  - intros -> ->. simpl. split; [reflexivity|]. f_equal.
    apply set_eq. intros k.
    rewrite !elem_of_difference, elem_of_union, elem_of_singleton. tauto.
  - destruct (nodeRef refs && negb (hidden props)); reflexivity.
Qed.

End WrapNodeEffectFacts.

(** ** The rendered element of the container *)

Module ContainerElementFacts.
Import Js Dom ContainerElement ContainerStatements.

Lemma wrapperStyle_keys k :
  is_Some (wrapperStyle !! k) <-> In k fixedStyleKeys.
Proof.
  unfold wrapperStyle, fixedStyleKeys. simpl.
  destruct (decide (k = "width")) as [->|H1]; [split; [auto|eauto]|].
  destruct (decide (k = "height")) as [->|H2]; [split; [auto|eauto]|].
  destruct (decide (k = "overflow")) as [->|H3]; [split; [auto|eauto]|].
  destruct (decide (k = "position")) as [->|H4]; [split; [auto 6|eauto]|].
  destruct (decide (k = "zIndex")) as [->|H5]; [split; [auto 6|eauto]|].
  rewrite !lookup_insert_ne by congruence.
  rewrite lookup_singleton_ne by congruence.
  split; [intros [v Hv]; discriminate|].
  intros [H|[H|[H|[H|[H|[]]]]]]; congruence.
Qed.

(** X16. The layout style of the container cannot be overridden, the style of
    a node can: in the [div] of the container the five properties of
    [wrapperStyle] have their fixed values whatever [style] is given and
    every other property is the given one; in the [div] of a node every
    property of the given [style] is kept, also where the wrapper sets
    one itself. *)
Theorem container_style_is_fixed_node_style_is_not {D : Type}
    (style : option (gmap string WrapNode.CssValue))
    (ARIA_NODE_DESC_KEY : string)
    (dataToAttribute : option (Types.Node D) -> string -> option string)
    (props : WrapNode.WrapNodeProps D) (dragging : bool)
    (nodeInternals : gmap string (Types.Node D)) :
  (forall k, In k fixedStyleKeys -> containerStyle style !! k = wrapperStyle !! k)
  /\ (forall k, ~ In k fixedStyleKeys -> containerStyle style !! k = default ∅ style !! k)
  /\ (forall e k v,
        WrapNode.NodeWrapper ARIA_NODE_DESC_KEY dataToAttribute props dragging nodeInternals
        = Some e ->
        WrapNode.style props !! k = Some v -> WrapNode.el_style D e !! k = Some v).
Proof.
  split; [|split].
  - intros k Hk. apply wrapperStyle_keys in Hk as [v Hv].
    unfold containerStyle. rewrite Hv. apply lookup_union_Some_l. exact Hv.
  - intros k Hk. unfold containerStyle.
    apply lookup_union_r.
    destruct (wrapperStyle !! k) as [v|] eqn:Hv; [|reflexivity].
    exfalso. apply Hk. apply wrapperStyle_keys. eauto.
  - intros e k v. unfold WrapNode.NodeWrapper.
    destruct (WrapNode.hidden props); [discriminate|].
    intros [= <-] Hstyle. simpl. apply lookup_union_Some_l. exact Hstyle.
Qed.

Lemma ownAttrs_keys k :
  is_Some (ownAttrs !! k) <-> In k ownAttrNames.
Proof.
  unfold ownAttrs, ownAttrNames. simpl.
  destruct (decide (k = "style")) as [->|H1]; [split; [auto|eauto]|].
  destruct (decide (k = "ref")) as [->|H2]; [split; [auto|eauto]|].
  destruct (decide (k = "className")) as [->|H3]; [split; [auto|eauto]|].
  destruct (decide (k = "data-testid")) as [->|H4]; [split; [auto 6|eauto]|].
  destruct (decide (k = "id")) as [->|H5]; [split; [auto 6|eauto]|].
  destruct (decide (k = "onDoubleClick")) as [->|H6]; [split; [auto 7|eauto]|].
  destruct (decide (k = "onContextMenu")) as [->|H7]; [split; [auto 8|eauto]|].
  destruct (decide (k = "onMouseMove")) as [->|H8]; [split; [auto 9|eauto]|].
  destruct (decide (k = "onClick")) as [->|H9]; [split; [auto 10|eauto]|].
  destruct (decide (k = "onMouseOver")) as [->|H10]; [split; [auto 11|eauto]|].
  rewrite !lookup_insert_ne by congruence.
  rewrite lookup_singleton_ne by congruence.
  split; [intros [v Hv]; discriminate|].
  intros [H|[H|[H|[H|[H|[H|[H|[H|[H|[H|[]]]]]]]]]]]; congruence.
Qed.

Lemma ownAttrsLogged_keys k :
  is_Some (ownAttrsLogged !! k) <-> In k ownAttrNames \/ k = "onMouseOut".
Proof.
  unfold ownAttrsLogged, ownAttrNames. simpl.
  destruct (decide (k = "style")) as [->|H1]; [split; [auto|eauto]|].
  destruct (decide (k = "ref")) as [->|H2]; [split; [auto|eauto]|].
  destruct (decide (k = "className")) as [->|H3]; [split; [auto|eauto]|].
  destruct (decide (k = "data-testid")) as [->|H4]; [split; [auto 6|eauto]|].
  destruct (decide (k = "id")) as [->|H5]; [split; [auto 7|eauto]|].
  destruct (decide (k = "onDoubleClick")) as [->|H6]; [split; [auto 8|eauto]|].
  destruct (decide (k = "onContextMenu")) as [->|H7]; [split; [auto 9|eauto]|].
  destruct (decide (k = "onMouseMove")) as [->|H8]; [split; [auto 10|eauto]|].
  destruct (decide (k = "onClick")) as [->|H9]; [split; [auto 11|eauto]|].
  destruct (decide (k = "onMouseOver")) as [->|H10]; [split; [auto 12|eauto]|].
  destruct (decide (k = "onMouseOut")) as [->|H11]; [split; [auto|eauto]|].
  rewrite !lookup_insert_ne by congruence.
  rewrite lookup_singleton_ne by congruence.
  split; [intros [v Hv]; discriminate|].
  intros [[H|[H|[H|[H|[H|[H|[H|[H|[H|[H|[]]]]]]]]]]]|H]; congruence.
Qed.

(** An attribute of the [div] is the one the container writes, when it
    writes one, and else the prop of that name unless the parameter list
    names it. *)
Lemma lookup_div {V : Type} (own : gmap string OwnAttr) (named : list string)
    (props : gmap string V) k :
  ((Own <$> own) ∪ (Spread <$> restOf named props)) !! k
  = match own !! k with
    | Some a => Some (Own a)
    | None => if bool_decide (k ∈ named) then None else Spread <$> props !! k
    end.
Proof.
  rewrite lookup_union, !lookup_fmap.
  destruct (own !! k) as [a|]; simpl.
  - destruct (Spread <$> restOf named props !! k); reflexivity.
  - rewrite (left_id None _). unfold restOf.
    destruct (decide (k ∈ named)) as [Hin|Hout].
    + rewrite bool_decide_eq_true_2 by exact Hin.
      rewrite (proj2 (map_lookup_filter_None _ props k)); [reflexivity|].
      right. intros v _ Hnot. apply Hnot. exact Hin.
    + rewrite bool_decide_eq_false_2 by exact Hout.
      destruct (props !! k) as [v|] eqn:Hv; simpl.
      * rewrite (proj2 (map_lookup_filter_Some _ props k v)); [reflexivity|].
        split; [exact Hv|exact Hout].
      * rewrite (proj2 (map_lookup_filter_None _ props k)); [reflexivity|].
        left. exact Hv.
Qed.

(** The two parameter lists differ in two names: the newer one has
    [onClick] and has no [attributionPosition]. *)
Lemma namedProps_versions k :
  k ∈ namedProps <-> (k ∈ namedPropsLogged /\ k <> "attributionPosition") \/ k = "onClick".
Proof.
  split.
  - revert k. apply Forall_forall.
    apply (bool_decide_unpack _). vm_compute. reflexivity.
  - intros [[Hin Hne]| ->].
    + revert k Hin Hne.
      apply (proj1 (Forall_forall
                      (fun n => n <> "attributionPosition" -> n ∈ namedProps)
                      namedPropsLogged)).
      apply (bool_decide_unpack _). vm_compute. reflexivity.
    + apply (bool_decide_unpack _). vm_compute. reflexivity.
Qed.



End ContainerElementFacts.

(** ** The delegation and hover statements at sample inputs *)

Module DelegationWitnesses.
Import Js Dom Statements Samples HoverStatements HoverSamples.

(** A diagram nested in the node [outer]: a search that starts at the
    inner container (element 2) itself passes it and finds [outer]. *)
Lemma search_unbounded_without_listener_above_witness :
  ReactFlow.findNodeOrEdge (plainElement 2) [nodeElement 1 "outer"; plainElement 0]
    (plainElement 2)
  = Some (nodeElement 1 "outer").
Proof.
  rewrite (DelegationFacts.search_unbounded_without_listener_above (plainElement 2)
             [nodeElement 1 "outer"; plainElement 0] (plainElement 2)).
  - reflexivity.
  - repeat constructor.
Defined.

Lemma pointer_over_b : pointerOver parseIdRecord overB (Some (KNode, idRecord "b")).
Proof.
  exists (nodeElement 3 "b"). split; [reflexivity|]. split; [reflexivity|].
  exists (idRecordText "b"). split; [reflexivity|]. split; [discriminate|reflexivity].
Defined.

(** The node [a] is recorded and the pointer comes over the node [b]: [a]
    is left, [b] is recorded and entered. *)
Lemma hover_step_as_intended_witness :
  ReactFlow.hoverEventHandlersDecorator parseIdRecord
    (mkHovered (Some "node") (idRecord "a"))
    (Some 1%nat) (Some 2%nat) (Some 3%nat) (Some 4%nat) overB
  = ([Invoke 3%nat overB (idRecord "a");
      SetCurrentHovered (mkHovered (Some "node") (idRecord "b"));
      Invoke 1%nat overB (idRecord "b")], Normal).
Proof.
  destruct (HoverSequenceFacts.hover_step_as_intended parseIdRecord 1%nat 2%nat 3%nat 4%nat
              overB (Some (KNode, idRecord "a"))) as [_ Hstep].
  apply (Hstep (Over KNode (idRecord "b"))). exact pointer_over_b.
Defined.

(** Without an edge leave callback, going from the edge [e] to the node
    [b] calls the node leave callback on the record of [e]; without a node
    leave callback, going from the node [a] to the edge [e] calls the edge
    leave callback on the record of [a]. *)
Lemma hover_leave_of_the_other_kind_witness :
  ReactFlow.hoverEventHandlersDecorator parseIdRecord
    (mkHovered (Some "edge") (idRecord "e"))
    (Some 1%nat) (Some 2%nat) (Some 3%nat) None overB
  = ([Invoke 3%nat overB (idRecord "e");
      SetCurrentHovered (mkHovered (Some "node") (idRecord "b"));
      Invoke 1%nat overB (idRecord "b")], Normal).
Proof.
  destruct (HoverSequenceFacts.hover_leave_of_the_other_kind parseIdRecord 1%nat 3%nat
              (Some 2%nat) overB (idRecord "e") (idRecord "b")) as [Hnode _].
  - eexists. reflexivity.
  - eexists. reflexivity.
  - reflexivity.
  - apply Hnode. exact pointer_over_b.
Defined.

(** The enter callbacks stay while the leave callbacks change: the
    pointer goes from [a] to [b] and only the node enter callback is
    called. *)
Lemma kept_enter_callbacks_never_leave_witness :
  (HoverSequences.mouseOversWith parseIdRecord (ReactFlow.mount stableHoverProps)
     [(overA, ReactFlow.mkHoverProps (Some 1%nat) (Some 2%nat) (Some 7%nat) (Some 8%nat));
      (overB, stableHoverProps)]).2
  = [([SetCurrentHovered (mkHovered (Some "node") (idRecord "a"));
       Invoke 1%nat overA (idRecord "a")], Normal);
     ([SetCurrentHovered (mkHovered (Some "node") (idRecord "b"));
       Invoke 1%nat overB (idRecord "b")], Normal)].
Proof.
  destruct (HoverSequenceFacts.kept_enter_callbacks_never_leave parseIdRecord
              stableHoverProps
              [(overA, ReactFlow.mkHoverProps (Some 1%nat) (Some 2%nat) (Some 7%nat)
                         (Some 8%nat));
               (overB, stableHoverProps)]) as [Hruns _].
  - repeat constructor.
  - exact Hruns.
Defined.

(** Leave callbacks alone: the pointer goes from [a] to [b] and nothing
    is called or recorded. *)
Lemma leave_callbacks_need_an_enter_callback_witness :
  let result := HoverSequences.mouseOversWith parseIdRecord (ReactFlow.mount leaveOnlyProps)
                  [(overA, leaveOnlyProps); (overB, leaveOnlyProps)] in
  Forall (fun run => run = ([], Normal)) result.2
  /\ ReactFlow.currentHovered result.1 = nothingHovered.
Proof.
  apply (HoverSequenceFacts.leave_callbacks_need_an_enter_callback parseIdRecord
           leaveOnlyProps [(overA, leaveOnlyProps); (overB, leaveOnlyProps)]).
  - split; reflexivity.
  - repeat constructor.
Defined.

(** The node enter callback is a new function at every render: the
    pointer goes from [a] to [b] and the leave of [a] is reported before
    the enter of [b]. *)
Lemma changed_enter_callbacks_keep_handler_current_witness :
  (HoverSequences.mouseOversWith parseIdRecord (ReactFlow.mount (hoverPropsWithEnter 1))
     [(overA, hoverPropsWithEnter 5); (overB, hoverPropsWithEnter 6)]).2
  = [([SetCurrentHovered (mkHovered (Some "node") (idRecord "a"));
       Invoke 1%nat overA (idRecord "a")], Normal);
     ([Invoke 3%nat overB (idRecord "a");
       SetCurrentHovered (mkHovered (Some "node") (idRecord "b"));
       Invoke 5%nat overB (idRecord "b")], Normal)].
Proof.
  destruct (HoverSequenceFacts.changed_enter_callbacks_keep_handler_current parseIdRecord
              (hoverPropsWithEnter 1)
              [(overA, hoverPropsWithEnter 5); (overB, hoverPropsWithEnter 6)])
    as [Hruns _].
  - repeat split.
  - exact Hruns.
Defined.

End DelegationWitnesses.

(** ** The key handler statements at sample inputs *)

Module KeyWitnesses.
Import Js Types WrapNode Statements WrapStatements Samples KeySamples.

(** ArrowUp on the node at (-7/2, 11/4): the announcement names (-3, 2). *)
Lemma arrow_key_announces_truncated_position_witness :
  onKeyDown selectionKeys offGridNodeProps arrowUp
  = [SetAriaLiveMessage "Moved selected node up. New position, x: -3, y: 2";
     UpdatePositions 0%Q (-1)%Q false].
Proof.
  destruct (WrapNodeEffectFacts.arrow_key_announces_truncated_position selectionKeys
              offGridNodeProps arrowUp) as [Hannounce _].
  assert (isSelectable offGridNodeProps = true -> ~ In (key arrowUp) selectionKeys)
    as Hkeys by (intros _ [H|[H|[H|[]]]]; discriminate).
  assert (- 2 ^ 31 <= truncate (xPos offGridNodeProps) < 2 ^ 31)%Z as Hx
    by (vm_compute; split; [discriminate|reflexivity]).
  assert (- 2 ^ 31 <= truncate (yPos offGridNodeProps) < 2 ^ 31)%Z as Hy
    by (vm_compute; split; [discriminate|reflexivity]).
  destruct (Hannounce eq_refl eq_refl eq_refl eq_refl Hkeys Hx Hy "up" eq_refl)
    as (delta & Hdelta & Hcalls).
  injection Hdelta as <-. exact Hcalls.
Defined.

End KeyWitnesses.
